(** * Channel mutations of the Iris API (src/iris/mutations/channel.js)

    A shallow embedding of the GraphQL mutation resolvers that drive the
    channel / community membership state machine, together with the
    theorems that settle the membership claims of the specification.

    The resolvers are [async] functions over a database gateway.  They are
    embedded as computations in a state monad over the [Store]; a gateway
    call takes effect at the point where the source issues it, and
    [await] / [Promise.all] / [.then] sequence the continuation after it. *)

From stdpp Require Import base option list gmap strings fin_maps.

Local Open Scope string_scope.

(** ** Data model

    The schema lives in the models, outside this file's source; the
    records below are the entities of the specification's data model,
    with the attributes the resolvers read. *)

(** A [Date]: milliseconds since the epoch. A nullable date field is an
    [option Date]; it is truthy exactly when it is [Some]. *)
Definition Date : Set := nat.

(** [GraphQLContext.user], as the resolvers use it ([id], [email]). *)
Module User.
Record t := Build { id : string; email : string }.
End User.

(** Modelled from the spec: the Channel entity of models/channel
    ([id], [communityId], [slug], [isPrivate], nullable [deletedAt]). *)
Module Channel.
Record t := Build {
  id : string;
  communityId : string;
  slug : string;
  isPrivate : bool;
  deletedAt : option Date }.
End Channel.

(** Modelled from the spec: the Community entity of models/community;
    its default channel set is kept with it, as the ids of the channels. *)
Module Community.
Record t := Build {
  slug : string;
  deletedAt : option Date;
  defaultChannels : list string }.
End Community.

(** Modelled from the spec: the Thread entity of models/thread, kept
    under its [id]. *)
Module Thread.
Record t := Build {
  channelId : string;
  deletedAt : option Date }.
End Thread.

(** Modelled from the spec: the status of a ChannelMembership,
    [{None, Member, Pending, Blocked}]; a user holds one status per
    channel. *)
Inductive Status := NoStatus | Member | Pending | Blocked.

Global Instance Status_eq_dec : EqDecision Status.
Proof. solve_decision. Defined.

(** Modelled from the spec: the ChannelMembership of models/usersChannels,
    a row per (channel, user): [status], and the orthogonal [isOwner] and
    [receiveNotifications]. *)
Module ChannelMembership.
Record t := Build {
  status : Status;
  isOwner : bool;
  receiveNotifications : bool }.
Definition none : t := Build NoStatus false false.
Definition withStatus (s : Status) (m : t) : t :=
  Build s (isOwner m) (receiveNotifications m).
End ChannelMembership.

(** Modelled from the spec: the permission set that
    [getUserPermissionsInChannel] of models/usersChannels resolves to; the
    resolvers read these flags. *)
Module ChannelPermissions.
Record t := Build {
  isOwner : bool;
  isMember : bool;
  isPending : bool;
  isBlocked : bool;
  receiveNotifications : bool }.
Definition allFalse : t := Build false false false false false.
End ChannelPermissions.

(** Modelled from the spec: the permission set [{isOwner, isMember}] that
    [getUserPermissionsInCommunity] of models/usersCommunities resolves
    to; it is also the row kept per (community, user).  Role None is
    [allFalse], role Member is [member], and an Owner has [isOwner]. *)
Module CommunityPermissions.
Record t := Build { isOwner : bool; isMember : bool }.
Definition allFalse : t := Build false false.
Definition member : t := Build false true.
End CommunityPermissions.

(** The two events the resolvers hand to [addQueue], with their
    payloads. *)
Inductive QueueEvent :=
| PrivateChannelRequestSent (userId : string) (channel : Channel.t)
| PrivateChannelRequestApproved
    (userId channelId communityId moderatorId : string).

(** Modelled from the spec: what the gateway reads and writes (the tables
    of the models, each under its key), the worker queue and the clock. *)
Record Store := mkStore {
  channels : gmap string Channel.t;
  communities : gmap string Community.t;
  usersChannels : gmap (string * string) ChannelMembership.t;
  usersCommunities : gmap (string * string) CommunityPermissions.t;
  threads : gmap string Thread.t;
  workerQueue : list QueueEvent;
  now : Date }.

Definition setChannels (f : gmap string Channel.t → gmap string Channel.t)
    (st : Store) : Store :=
  mkStore (f (channels st)) (communities st) (usersChannels st)
          (usersCommunities st) (threads st) (workerQueue st) (now st).

Definition setUsersChannels
    (f : gmap (string * string) ChannelMembership.t →
         gmap (string * string) ChannelMembership.t)
    (st : Store) : Store :=
  mkStore (channels st) (communities st) (f (usersChannels st))
          (usersCommunities st) (threads st) (workerQueue st) (now st).

Definition setUsersCommunities
    (f : gmap (string * string) CommunityPermissions.t →
         gmap (string * string) CommunityPermissions.t)
    (st : Store) : Store :=
  mkStore (channels st) (communities st) (usersChannels st)
          (f (usersCommunities st)) (threads st) (workerQueue st) (now st).

Definition setThreads (f : gmap string Thread.t → gmap string Thread.t)
    (st : Store) : Store :=
  mkStore (channels st) (communities st) (usersChannels st)
          (usersCommunities st) (f (threads st)) (workerQueue st) (now st).

Definition setWorkerQueue (f : list QueueEvent → list QueueEvent)
    (st : Store) : Store :=
  mkStore (channels st) (communities st) (usersChannels st)
          (usersCommunities st) (threads st) (f (workerQueue st)) (now st).

(** ** The monad of resolvers *)

Definition M (A : Type) : Type := Store → A * Store.

Global Instance M_ret : MRet M := λ A a st, (a, st).
Global Instance M_bind : MBind M := λ A B k m st,
  let (a, st') := m st in k a st'.

Definition reads {A} (f : Store → A) : M A := λ st, (f st, st).
Definition writes (f : Store → Store) : M unit := λ st, (tt, f st).

(** ** Store observations *)

(** The stored row of user [u] in channel [c]; no row is the row [none]. *)
Definition membershipOf (st : Store) (c u : string) : ChannelMembership.t :=
  default ChannelMembership.none (usersChannels st !! (c, u)).

(** [status(u, c)]. *)
Definition statusOf (st : Store) (c u : string) : Status :=
  ChannelMembership.status (membershipOf st c u).

(** The stored row of user [u] in community [k]; no row is [allFalse]. *)
Definition communityRowOf (st : Store) (k u : string)
    : CommunityPermissions.t :=
  default CommunityPermissions.allFalse (usersCommunities st !! (k, u)).

(** The default channel set of community [k]. *)
Definition defaultChannelsOf (st : Store) (k : string) : list string :=
  match communities st !! k with
  | Some com => Community.defaultChannels com
  | None => []
  end.

(** ** The gateway (models/channel, models/community, models/usersChannels,
    models/usersCommunities, models/thread, utils/workerQueue) *)

(** Modelled from the spec: [getChannels(ids) → Channel[]] of
    models/channel, the stored records of the given ids; soft-deleted
    channels are still returned, with [deletedAt] set. *)
Definition getChannels (ids : list string) : M (list Channel.t) :=
  reads (λ st, omap (λ i, channels st !! i) ids).

(** The channel exists and is not soft-deleted. *)
Definition isLive (st : Store) (c : string) : bool :=
  match channels st !! c with
  | Some ch => bool_decide (Channel.deletedAt ch = None)
  | None => false
  end.

(** The Permission Resolver on a store, for channels. *)
Definition resolveChannelPermissions (st : Store) (c u : string)
    : ChannelPermissions.t :=
  if isLive st c then
    let m := membershipOf st c u in
    ChannelPermissions.Build
      (ChannelMembership.isOwner m)
      (bool_decide (ChannelMembership.status m = Member))
      (bool_decide (ChannelMembership.status m = Pending))
      (bool_decide (ChannelMembership.status m = Blocked))
      (ChannelMembership.receiveNotifications m)
  else ChannelPermissions.allFalse.

(** Modelled from the spec: [getUserPermissionsInChannel] of
    models/usersChannels, the Permission Resolver for channels; it
    resolves the stored status to the flags
    [{isOwner, isMember, isPending, isBlocked, receiveNotifications}], and
    to the all-false set when the channel was deleted or is not found. *)
Definition getUserPermissionsInChannel (channelId userId : string)
    : M ChannelPermissions.t :=
  reads (λ st, resolveChannelPermissions st channelId userId).

(** The Permission Resolver on a store, for communities. *)
Definition resolveCommunityPermissions (st : Store) (k u : string)
    : CommunityPermissions.t :=
  match communities st !! k with
  | Some com =>
      if bool_decide (Community.deletedAt com = None)
      then communityRowOf st k u
      else CommunityPermissions.allFalse
  | None => CommunityPermissions.allFalse
  end.

(** Modelled from the spec: [getUserPermissionsInCommunity] of
    models/usersCommunities, the Permission Resolver for communities:
    [{isOwner, isMember}], all false when the community was deleted or is
    not found. *)
Definition getUserPermissionsInCommunity (communityId userId : string)
    : M CommunityPermissions.t :=
  reads (λ st, resolveCommunityPermissions st communityId userId).

(** User [u] has Member status in a channel of community [k]. *)
Definition isMemberOfAnyChannelInCommunity (st : Store) (k u : string)
    : bool :=
  bool_decide
    (map_Exists (λ c ch, Channel.communityId ch = k ∧ statusOf st c u = Member)
                (channels st)).

(** Modelled from the spec: [userIsMemberOfAnyChannelInCommunity
    (communityId, userId) → bool] of models/community: whether the user
    has Member status in some channel of the community. *)
Definition userIsMemberOfAnyChannelInCommunity (communityId userId : string)
    : M bool :=
  reads (λ st, isMemberOfAnyChannelInCommunity st communityId userId).

(** Modelled from the spec: [createMemberInCommunity] of
    models/usersCommunities grants CommunityMembership = Member. *)
Definition createMemberInCommunity (communityId userId : string) : M unit :=
  writes (setUsersCommunities
            <[(communityId, userId) := CommunityPermissions.member]>).

(** Modelled from the spec: [removeMemberInCommunity] of
    models/usersCommunities removes the CommunityMembership. *)
Definition removeMemberInCommunity (communityId userId : string) : M unit :=
  writes (setUsersCommunities (delete (communityId, userId))).

(** The one write behind every single-user status transition: the status
    of (channel, user) becomes [s], the other attributes of the row stay. *)
Definition putStatus (s : Status) (c u : string) (st : Store) : Store :=
  setUsersChannels
    <[(c, u) := ChannelMembership.withStatus s (membershipOf st c u)]> st.

(** A status transition as a gateway call; it resolves to the channel
    record. *)
Definition transition (s : Status) (channelId userId : string)
    : M (option Channel.t) :=
  λ st, (channels st !! channelId, putStatus s channelId userId st).

(** Modelled from the spec: [createMemberInChannel] of models/usersChannels,
    status → Member; it resolves to the joined channel (the resolver reads
    [joinedChannel.communityId]). *)
Definition createMemberInChannel := transition Member.

(** Modelled from the spec: [removeMemberInChannel] of models/usersChannels,
    status → None. *)
Definition removeMemberInChannel := transition NoStatus.

(** Modelled from the spec: [unblockMemberInChannel] of
    models/usersChannels, status → None. *)
Definition unblockMemberInChannel := transition NoStatus.

(** Modelled from the spec: [createOrUpdatePendingUserInChannel] of
    models/usersChannels, status → Pending. *)
Definition createOrUpdatePendingUserInChannel := transition Pending.

(** Modelled from the spec: [blockUserInChannel] of models/usersChannels,
    status → Blocked. *)
Definition blockUserInChannel := transition Blocked.

(** Modelled from the spec: [approvePendingUserInChannel] of
    models/usersChannels, status → Member. *)
Definition approvePendingUserInChannel := transition Member.

(** Modelled from the spec: [removeMembersInChannel(channelId)] (bulk) of
    models/usersChannels removes all memberships of the channel: all
    users → None. *)
Definition removeMembersInChannel (channelId : string) : M unit :=
  writes (setUsersChannels
    (map_imap (λ (cu : string * string) m,
       Some (if bool_decide (cu.1 = channelId)
             then ChannelMembership.withStatus NoStatus m else m)))).

(** Modelled from the spec: [approvePendingUsersInChannel(channelId)] (bulk)
    of models/usersChannels: every Pending user of the channel becomes
    Member. *)
Definition approvePendingUsersInChannel (channelId : string) : M unit :=
  writes (setUsersChannels
    (map_imap (λ (cu : string * string) m,
       Some (if bool_decide (cu.1 = channelId) &&
                bool_decide (ChannelMembership.status m = Pending)
             then ChannelMembership.withStatus Member m else m)))).

(** Member status in each of the listed channels. *)
Definition joinChannels (userId : string) (channelIds : list string)
    (st : Store) : Store :=
  foldr (λ c acc, putStatus Member c userId acc) st channelIds.

(** Modelled from the spec: [createMemberInDefaultChannels(communityId,
    userId)] of models/usersChannels enumerates the default channel set of
    the community and creates Member status in each. *)
Definition createMemberInDefaultChannels (communityId userId : string)
    : M unit :=
  writes (λ st, joinChannels userId (defaultChannelsOf st communityId) st).

(** The soft-deleted form of a channel. *)
Definition deletedChannel (date : Date) (ch : Channel.t) : Channel.t :=
  Channel.Build (Channel.id ch) (Channel.communityId ch) (Channel.slug ch)
                (Channel.isPrivate ch) (Some date).

(** Modelled from the spec: [deleteChannel(id) → void] of models/channel,
    the soft delete: [deletedAt] is set. *)
Definition deleteChannel (channelId : string) : M unit :=
  writes (λ st, setChannels (alter (deletedChannel (now st)) channelId) st).

(** [EditChannelArguments.input], imported from models/channel. *)
Module EditChannelInput.
Record t := Build { channelId : string; slug : string; isPrivate : bool }.
End EditChannelInput.

(** Modelled from the spec: [editChannel(input) → Channel] of
    models/channel stores the edited attributes and resolves to the
    channel. *)
Definition editChannel (input : EditChannelInput.t) : M (option Channel.t) :=
  λ st,
    let st' := setChannels
      (alter (λ ch, Channel.Build (Channel.id ch) (Channel.communityId ch)
                      (EditChannelInput.slug input)
                      (EditChannelInput.isPrivate input)
                      (Channel.deletedAt ch))
             (EditChannelInput.channelId input)) st in
    (channels st' !! EditChannelInput.channelId input, st').

(** The ids of the threads that belong to a channel. *)
Definition threadsOfChannel (channelId : string) (st : Store) : list string :=
  (map_to_list
     (filter (λ it, Thread.channelId it.2 = channelId) (threads st))).*1.

(** Modelled from the spec: [getThreadsByChannelToDelete(channelId) →
    Thread[]] of models/thread, the threads belonging to the channel (by
    id). *)
Definition getThreadsByChannelToDelete (channelId : string)
    : M (list string) :=
  reads (threadsOfChannel channelId).

(** The soft-deleted form of a thread. *)
Definition deletedThread (date : Date) (t : Thread.t) : Thread.t :=
  Thread.Build (Thread.channelId t) (Some date).

(** Modelled from the spec: [deleteThread(id)] of models/thread, the soft
    delete of one thread. *)
Definition deleteThread (threadId : string) : M unit :=
  writes (λ st, setThreads (alter (deletedThread (now st)) threadId) st).

(** Modelled from the spec: the Notification Dispatcher,
    [enqueue(eventName, payload) → void] ([addQueue] of utils/workerQueue). *)
Definition addQueue (e : QueueEvent) : M unit :=
  writes (setWorkerQueue (λ q, (q ++ [e])%list)).

(** Modelled from the spec: [toggleUserChannelNotifications(userId,
    channelId, value)] of models/usersChannels stores [value] as the
    [receiveNotifications] of the row of (channel, user). *)
Definition toggleUserChannelNotifications (userId channelId : string)
    (value : bool) : M unit :=
  writes (λ st, setUsersChannels
    <[(channelId, userId) :=
        ChannelMembership.Build
          (ChannelMembership.status (membershipOf st channelId userId))
          (ChannelMembership.isOwner (membershipOf st channelId userId))
          value]> st).

(** Modelled from the spec: [getCommunities(ids) → Community[]] of
    models/community, the stored records of the given ids. *)
Definition getCommunities (ids : list string) : M (list Community.t) :=
  reads (λ st, omap (λ i, communities st !! i) ids).

(** A channel of slug [slug] whose community has the slug
    [communitySlug], if there is one. *)
Definition channelBySlug (st : Store) (slug communitySlug : string)
    : option Channel.t :=
  head (filter
          (λ ch, Channel.slug ch = slug ∧
                 Community.slug <$> communities st !! Channel.communityId ch
                 = Some communitySlug)
          (map_to_list (channels st)).*2).

(** Modelled from the spec: [getChannelBySlug(slug, communitySlug) →
    Channel?] of models/channel. *)
Definition getChannelBySlug (slug communitySlug : string)
    : M (option Channel.t) :=
  reads (λ st, channelBySlug st slug communitySlug).

(** [CreateChannelArguments.input], imported from models/channel. *)
Module CreateChannelInput.
Record t := Build { communityId : string; slug : string; isPrivate : bool }.
End CreateChannelInput.

(** Modelled from the spec: [createChannel(input, ownerId) → Channel] of
    models/channel stores a new channel of the community and resolves to
    it.  [newId] is the id that the database assigns to the record. *)
Definition createChannel (newId : string) (input : CreateChannelInput.t)
    (ownerId : string) : M Channel.t :=
  λ st,
    let newChannel :=
      Channel.Build newId (CreateChannelInput.communityId input)
        (CreateChannelInput.slug input) (CreateChannelInput.isPrivate input)
        None in
    (newChannel, setChannels <[newId := newChannel]> st).

(** Modelled from the spec: [createOwnerInChannel] of models/usersChannels
    grants Owner and Member in the channel. *)
Definition createOwnerInChannel (channelId userId : string) : M unit :=
  writes (λ st, setUsersChannels
    <[(channelId, userId) :=
        ChannelMembership.Build Member true
          (ChannelMembership.receiveNotifications
             (membershipOf st channelId userId))]> st).

(** ** Values of the resolvers *)

(** What a resolver's promise settles to. *)
Inductive Result :=
| UserError (message : string)      (* [return new UserError(message)] *)
| Value (channel : option Channel.t) (* a channel record, or [undefined] *)
| Promises (threadIds : list string) (* the array of [deleteThread] promises *)
| TypeError.                         (* a property read on [undefined] *)

(** The resolvers are untyped at run time.  Where the source binds a name
    to a value of another shape than the one it then reads from it, the
    value is kept with its shape, and the reads are JavaScript's. *)
Inductive JsValue :=
| JsChannelPermissions (p : ChannelPermissions.t)
| JsCommunityPermissions (p : CommunityPermissions.t)
| JsChannels (records : list Channel.t)
| JsPromise (settlesTo : JsValue).

(** [v[0]]: the first element of an array; [undefined] on a permissions
    object or a promise, which have no property [0]. *)
Definition jsFirst (v : JsValue) : option Channel.t :=
  match v with
  | JsChannels records => head records
  | _ => None
  end.

(** Truthiness of [v.isOwner]; [undefined], hence falsy, on an array or a
    promise. *)
Definition jsIsOwner (v : JsValue) : bool :=
  match v with
  | JsChannelPermissions p => ChannelPermissions.isOwner p
  | JsCommunityPermissions p => CommunityPermissions.isOwner p
  | JsChannels _ | JsPromise _ => false
  end.

Module TogglePendingInput.
Record t := Build { channelId : string; userId : string; action : string }.
End TogglePendingInput.

Module UnblockInput.
Record t := Build { channelId : string; userId : string }.
End UnblockInput.

(** [Contact], with the [lastName] that the resolver reads from it. *)
Module Contact.
Record t := Build {
  email : string;
  firstName : option string;
  lastName : option string }.
End Contact.

Module EmailInvitesInput.
Record t := Build {
  customMessage : option string;
  contacts : list Contact.t;
  id : string }.
End EmailInvitesInput.

(** The payload of a 'private channel invite notification' job. *)
Module InviteNotification.
Record t := Build {
  recipientEmail : string;
  recipientFirstName : option string;
  recipientLastName : option string;
  channelId : string;
  senderId : string;
  customMessage : option string }.
End InviteNotification.

(** What [sendChannelEmailInvites] settles to: an error, or the array of
    the [addQueue] promises, each given by the job it enqueues, in the
    order of the calls. *)
Inductive InvitesResult :=
| InvitesError (message : string)
| Invites (jobs : list InviteNotification.t).

(** [s ? s : null] on a nullable string: [null], [undefined] and the
    empty string are falsy. *)
Definition orNull (s : option string) : option string :=
  match s with
  | Some EmptyString | None => None
  | Some _ => s
  end.

(** ** The resolvers ([module.exports.Mutation]) *)

Module Mutation.

(** [channelSlugIsBlacklisted] of utils/permissions, the table of
    reserved slugs, is a parameter. *)
Definition createChannel (channelSlugIsBlacklisted : string → bool)
    (newId : string) (input : CreateChannelInput.t) (user : option User.t)
    : M Result :=
  match user with
  | None =>
      mret (UserError "You must be signed in to create a new community.")
  | Some currentUser =>
      if channelSlugIsBlacklisted (CreateChannelInput.slug input)
      then mret (UserError "This channel name is reserved.")
      else
        communities ← getCommunities [CreateChannelInput.communityId input];
        currentUserCommunityPermissions ←
          getUserPermissionsInCommunity
            (CreateChannelInput.communityId input) (User.id currentUser);
        match head communities with
        | None =>
            mret (UserError
              "You don't have permission to create a channel in this community.")
        | Some communityToEvaluate =>
            if negb (CommunityPermissions.isOwner
                       currentUserCommunityPermissions)
            then
              mret (UserError
                "You don't have permission to create a channel in this community.")
            else
              channelWithSlug ←
                getChannelBySlug (CreateChannelInput.slug input)
                                 (Community.slug communityToEvaluate);
              if channelWithSlug is Some _
              then mret (UserError "A channel with this slug already exists.")
              else
                newChannel ← createChannel newId input (User.id currentUser);
                _ ← createOwnerInChannel (Channel.id newChannel)
                                         (User.id currentUser);
                mret (Value (Some newChannel))
        end
  end.

Definition deleteChannel (channelId : string) (user : option User.t)
    : M Result :=
  match user with
  | None =>
      mret (UserError
              "You must be signed in to make changes to this channel.")
  | Some currentUser =>
      currentUserChannelPermissions ←
        getUserPermissionsInChannel channelId (User.id currentUser);
      channels ← getChannels [channelId];
      match head channels with
      | None => mret (UserError "Channel doesn't exist")
      | Some channelToEvaluate =>
          if Channel.deletedAt channelToEvaluate is Some _
          then mret (UserError "Channel doesn't exist")
          else
            currentUserCommunityPermissions ←
              getUserPermissionsInCommunity
                (Channel.communityId channelToEvaluate)
                (User.id currentUser);
            if negb (ChannelPermissions.isOwner
                       currentUserChannelPermissions) &&
               negb (CommunityPermissions.isOwner
                       currentUserCommunityPermissions)
            then
              mret (UserError
                "You don't have permission to make changes to this channel")
            else
              _ ← deleteChannel channelId;
              allThreadsInChannel ← getThreadsByChannelToDelete channelId;
              _ ← removeMembersInChannel channelId;
              if Nat.eqb (length allThreadsInChannel) 0 then mret (Value None)
              else
                _ ← mapM deleteThread allThreadsInChannel;
                mret (Promises allThreadsInChannel)
      end
  end.

Definition editChannel (input : EditChannelInput.t) (user : option User.t)
    : M Result :=
  match user with
  | None =>
      mret (UserError
              "You must be signed in to make changes to this channel.")
  | Some currentUser =>
      getCurrentUserChannelPermissions ←
        getUserPermissionsInChannel (EditChannelInput.channelId input)
                                    (User.id currentUser);
      getChannelRecords ← getChannels [EditChannelInput.channelId input];
      (* const [channels, currentUserChannelPermissions] =
           await Promise.all([getCurrentUserChannelPermissions,
                              getChannelRecords]) *)
      let '(channels, currentUserChannelPermissions) :=
        (JsChannelPermissions getCurrentUserChannelPermissions,
         JsChannels getChannelRecords) in
      match jsFirst channels with
      | None => mret (UserError "This channel doesn't exist")
      | Some channelToEvaluate =>
          if Channel.deletedAt channelToEvaluate is Some _
          then mret (UserError "This channel doesn't exist")
          else
            currentUserCommunityPermissions ←
              getUserPermissionsInCommunity
                (Channel.communityId channelToEvaluate)
                (User.id currentUser);
            if CommunityPermissions.isOwner
                 currentUserCommunityPermissions ||
               jsIsOwner currentUserChannelPermissions
            then
              _ ← (if Channel.isPrivate channelToEvaluate &&
                      negb (EditChannelInput.isPrivate input)
                   then approvePendingUsersInChannel
                          (EditChannelInput.channelId input)
                   else mret ());
              edited ← editChannel input;
              mret (Value edited)
            else
              mret (UserError
                "You don't have permission to make changes to this channel.")
      end
  end.

Definition toggleChannelSubscription (channelId : string)
    (user : option User.t) : M Result :=
  match user with
  | None => mret (UserError "You must be signed in to follow this channel.")
  | Some currentUser =>
      channels ← getChannels [channelId];
      currentUserChannelPermissions ←
        getUserPermissionsInChannel channelId (User.id currentUser);
      match head channels with
      | None => mret (UserError "This channel doesn't exist")
      | Some channelToEvaluate =>
          if Channel.deletedAt channelToEvaluate is Some _
          then mret (UserError "This channel doesn't exist")
          else if ChannelPermissions.isBlocked currentUserChannelPermissions
          then mret (UserError "You don't have permission to do that.")
          else if ChannelPermissions.isOwner currentUserChannelPermissions
          then
            mret (UserError
              "Owners of a community can't join or leave their own channel.")
          else if ChannelPermissions.isMember currentUserChannelPermissions
          then
            _ ← removeMemberInChannel channelId (User.id currentUser);
            isMemberOfAnotherChannel ←
              userIsMemberOfAnyChannelInCommunity
                (Channel.communityId channelToEvaluate)
                (User.id currentUser);
            _ ← (if isMemberOfAnotherChannel : bool then mret ()
                 else removeMemberInCommunity
                        (Channel.communityId channelToEvaluate)
                        (User.id currentUser));
            mret (Value (Some channelToEvaluate))
          else if ChannelPermissions.isPending currentUserChannelPermissions
          then
            removed ← removeMemberInChannel channelId (User.id currentUser);
            mret (Value removed)
          else if Channel.isPrivate channelToEvaluate
          then
            channel ← createOrUpdatePendingUserInChannel
                        channelId (User.id currentUser);
            _ ← addQueue (PrivateChannelRequestSent
                            (User.id currentUser) channelToEvaluate);
            mret (Value channel)
          else
            joinedChannel ←
              createMemberInChannel channelId (User.id currentUser);
            currentUserCommunityPermissions ←
              getUserPermissionsInCommunity
                (Channel.communityId channelToEvaluate)
                (User.id currentUser);
            if CommunityPermissions.isMember currentUserCommunityPermissions
            then mret (Value joinedChannel)
            else
              match joinedChannel with
              | None => mret TypeError
              | Some joined =>
                  _ ← createMemberInCommunity
                        (Channel.communityId joined) (User.id currentUser);
                  _ ← createMemberInDefaultChannels
                        (Channel.communityId joined) (User.id currentUser);
                  mret (Value joinedChannel)
              end
      end
  end.

Definition toggleChannelNotifications (channelId : string)
    (user : option User.t) : M Result :=
  match user with
  | None =>
      mret (UserError
              "You must be signed in to get notifications for this channel.")
  | Some currentUser =>
      permissions ←
        getUserPermissionsInChannel channelId (User.id currentUser);
      (* the value of this callback, the error or the settled write, is
         passed to the next [.then], whose callback takes no argument *)
      _ ← (if ChannelPermissions.isBlocked permissions ||
              negb (ChannelPermissions.isMember permissions)
           then mret (UserError "You don't have permission to do that.")
           else
             let value :=
               negb (ChannelPermissions.receiveNotifications permissions) in
             _ ← toggleUserChannelNotifications
                   (User.id currentUser) channelId value;
             mret (Value None));
      channelRecords ← getChannels [channelId];
      mret (Value (head channelRecords))
  end.

Definition togglePendingUser (input : TogglePendingInput.t)
    (user : option User.t) : M Result :=
  match user with
  | None =>
      mret (UserError
              "You must be signed in to make changes to this channel.")
  | Some currentUser =>
      channelPermissions ←
        getUserPermissionsInChannel (TogglePendingInput.channelId input)
                                    (User.id currentUser);
      evaluatedUserPermissions ←
        getUserPermissionsInChannel (TogglePendingInput.channelId input)
                                    (TogglePendingInput.userId input);
      channels ← getChannels [TogglePendingInput.channelId input];
      match head channels with
      | None => mret (UserError "This channel doesn't exist")
      | Some channelToEvaluate =>
          if Channel.deletedAt channelToEvaluate is Some _
          then mret (UserError "This channel doesn't exist")
          else
            currentUserCommunityPermissions ←
              getUserPermissionsInCommunity
                (Channel.communityId channelToEvaluate)
                (User.id currentUser);
            if negb (ChannelPermissions.isPending evaluatedUserPermissions)
            then
              mret (UserError
                "This user is not currently pending access to this channel.")
            else if negb (ChannelPermissions.isOwner channelPermissions) ||
                    negb (CommunityPermissions.isOwner
                            currentUserCommunityPermissions)
            then
              mret (UserError
                "You don't have permission to make changes to this channel.")
            else if String.eqb (TogglePendingInput.action input) "block"
            then
              _ ← blockUserInChannel (TogglePendingInput.channelId input)
                                     (TogglePendingInput.userId input);
              mret (Value (Some channelToEvaluate))
            else if String.eqb (TogglePendingInput.action input) "approve"
            then
              approveUser ←
                approvePendingUserInChannel
                  (TogglePendingInput.channelId input)
                  (TogglePendingInput.userId input);
              if CommunityPermissions.isMember
                   currentUserCommunityPermissions
              then
                _ ← addQueue (PrivateChannelRequestApproved
                                (TogglePendingInput.userId input)
                                (Channel.id channelToEvaluate)
                                (Channel.communityId channelToEvaluate)
                                (User.id currentUser));
                mret (Value (Some channelToEvaluate))
              else
                _ ← createMemberInCommunity
                      (Channel.communityId channelToEvaluate)
                      (TogglePendingInput.userId input);
                _ ← createMemberInDefaultChannels
                      (Channel.communityId channelToEvaluate)
                      (TogglePendingInput.userId input);
                _ ← addQueue (PrivateChannelRequestApproved
                                (TogglePendingInput.userId input)
                                (Channel.id channelToEvaluate)
                                (Channel.communityId channelToEvaluate)
                                (User.id currentUser));
                mret (Value (Some channelToEvaluate))
            else mret (Value None)
      end
  end.

Definition unblockUser (input : UnblockInput.t) (user : option User.t)
    : M Result :=
  match user with
  | None =>
      mret (UserError
              "You must be signed in to make changes to this channel.")
  | Some currentUser =>
      currentUserChannelPermissions ←
        getUserPermissionsInChannel (UnblockInput.channelId input)
                                    (User.id currentUser);
      evaluatedUserChannelPermissions ←
        getUserPermissionsInChannel (UnblockInput.channelId input)
                                    (UnblockInput.userId input);
      channels ← getChannels [UnblockInput.channelId input];
      match head channels with
      | None => mret (UserError "This channel doesn't exist")
      | Some channelToEvaluate =>
          if Channel.deletedAt channelToEvaluate is Some _
          then mret (UserError "This channel doesn't exist")
          else
            (* const currentUserCommunityPermissions =
                 getUserPermissionsInCommunity(...): the call is issued
               and the name is bound to its promise, there is no await *)
            pending ←
              getUserPermissionsInCommunity
                (Channel.communityId channelToEvaluate)
                (User.id currentUser);
            let currentUserCommunityPermissions :=
              JsPromise (JsCommunityPermissions pending) in
            if negb (ChannelPermissions.isBlocked
                       evaluatedUserChannelPermissions)
            then
              mret (UserError
                "This user is not currently blocked in this channel.")
            else if ChannelPermissions.isOwner
                      currentUserChannelPermissions ||
                    jsIsOwner currentUserCommunityPermissions
            then
              _ ← unblockMemberInChannel (UnblockInput.channelId input)
                                         (UnblockInput.userId input);
              mret (Value (Some channelToEvaluate))
            else
              mret (UserError
                "You don't have permission to make changes to this channel.")
      end
  end.

Definition sendChannelEmailInvites (input : EmailInvitesInput.t)
    (user : option User.t) (st : Store) : InvitesResult :=
  match user with
  | None =>
      InvitesError "You must be signed in to invite people to this channel."
  | Some currentUser =>
      (* const permissions = await getUserPermissionsInChannel(...) *)
      let permissions :=
        resolveChannelPermissions st (EmailInvitesInput.id input)
                                  (User.id currentUser) in
      if negb (ChannelPermissions.isOwner permissions)
      then
        InvitesError
          "You don't have permission to invite people to this channel."
      else
        Invites
          ((λ contact,
              InviteNotification.Build
                (Contact.email contact)
                (orNull (Contact.firstName contact))
                (orNull (Contact.lastName contact))
                (EmailInvitesInput.id input)
                (User.id currentUser)
                (orNull (EmailInvitesInput.customMessage input)))
           <$> filter (λ contact,
                         Contact.email contact ≠ User.email currentUser)
                      (EmailInvitesInput.contacts input))
  end.

End Mutation.

(** ** Stores that the resolvers reach *)

(** The community is joined: the membership row and the default channels. *)
Definition joinCommunity (k u : string) (st : Store) : Store :=
  joinChannels u (defaultChannelsOf st k)
    (setUsersCommunities <[(k, u) := CommunityPermissions.member]> st).

(** After user [u] joined the public channel [c] of community [k] without
    holding a membership of [k]. *)
Definition afterJoin (c k u : string) (st : Store) : Store :=
  joinCommunity k u (putStatus Member c u st).

(** After user [u] left channel [c] of community [k]. *)
Definition afterLeave (c k u : string) (st : Store) : Store :=
  let removed := putStatus NoStatus c u st in
  if isMemberOfAnyChannelInCommunity removed k u then removed
  else setUsersCommunities (delete (k, u)) removed.

(** User [u] has Member status in a channel of community [k] other than
    [c]. *)
Definition memberElsewhere (st : Store) (k c u : string) : Prop :=
  map_Exists
    (λ c' ch', c' ≠ c ∧ Channel.communityId ch' = k ∧ statusOf st c' u = Member)
    (channels st).

Global Instance memberElsewhere_dec st k c u :
  Decision (memberElsewhere st k c u).
Proof. unfold memberElsewhere. apply _. Defined.

(** After the channel [c] was deleted: the channel is soft-deleted, its
    memberships are removed, its threads are soft-deleted. *)
Definition afterDelete (c : string) (st : Store) : Store :=
  (mapM deleteThread (threadsOfChannel c st)
     ((removeMembersInChannel c)
        (setChannels (alter (deletedChannel (now st)) c) st)).2).2.

(** After [actor] afterApproval [target], pending in channel [ch] (of id [c]).
    Whether the community is joined is decided on [actorIsMember], the
    community permissions of the actor. *)
Definition afterApproval (c target : string) (ch : Channel.t) (actor : User.t)
    (actorIsMember : bool) (st : Store) : Store :=
  let notice :=
    PrivateChannelRequestApproved target (Channel.id ch)
      (Channel.communityId ch) (User.id actor) in
  setWorkerQueue (λ q, (q ++ [notice])%list)
    (if actorIsMember then putStatus Member c target st
     else joinCommunity (Channel.communityId ch) target
            (putStatus Member c target st)).

(** A resolver that leaves the store as it was whenever it settles to a
    [UserError]. *)
Definition writesNothingOnError (resolver : M Result) : Prop :=
  ∀ st st' message, resolver st = (UserError message, st') → st' = st.

(** The stores [st] and [st'] differ at most in the row of user [u] in
    channel [c]. *)
Definition onlyRowDiffers (c u : string) (st st' : Store) : Prop :=
  channels st' = channels st ∧
  communities st' = communities st ∧
  usersCommunities st' = usersCommunities st ∧
  threads st' = threads st ∧
  workerQueue st' = workerQueue st ∧
  now st' = now st ∧
  ∀ c' u', (c', u') ≠ (c, u) →
           usersChannels st' !! (c', u') = usersChannels st !! (c', u').

(** The table of reserved slugs used in the examples. *)
Definition reservedSlugs (slug : string) : bool :=
  bool_decide (slug ∈ ["feed"; "members"; "settings"]).

(** ** A concrete world

    One community [K] with two default channels, a private channel [c2]
    and a public channel [lounge]; the inputs at which the theorems below
    are instantiated. *)
Module World.

Definition general : Channel.t :=
Channel.Build "general" "K" "general" false None.
Definition announcements : Channel.t :=
Channel.Build "announcements" "K" "announcements" false None.
Definition c2 : Channel.t := Channel.Build "c2" "K" "core-team" true None.
Definition lounge : Channel.t :=
Channel.Build "lounge" "K" "lounge" false None.

(** [alice] owns the community and every channel; [carol] owns the
  community only; [dave] owns the channel [c2] only. *)
Definition alice : User.t := User.Build "alice" "alice@example.org".
Definition carol : User.t := User.Build "carol" "carol@example.org".
Definition dave : User.t := User.Build "dave" "dave@example.org".
(** [victor] is pending in [c2], [bob] is blocked there; [ursula] is a
  member of [lounge] only, [wendy] of [lounge] and [general]; [zed]
  has no relation to the community yet; [erin] has none either. *)
Definition victor : User.t := User.Build "victor" "victor@example.org".
Definition bob : User.t := User.Build "bob" "bob@example.org".
Definition ursula : User.t := User.Build "ursula" "ursula@example.org".
Definition wendy : User.t := User.Build "wendy" "wendy@example.org".
Definition zed : User.t := User.Build "zed" "zed@example.org".
Definition erin : User.t := User.Build "erin" "erin@example.org".

Definition store : Store := mkStore
(list_to_map
   [("general", general); ("announcements", announcements);
    ("c2", c2); ("lounge", lounge)])
(list_to_map [("K", Community.Build "k" None ["general"; "announcements"])])
(list_to_map
   [(("general", "alice"), ChannelMembership.Build Member true true);
    (("announcements", "alice"), ChannelMembership.Build Member true true);
    (("c2", "alice"), ChannelMembership.Build Member true true);
    (("lounge", "alice"), ChannelMembership.Build Member true true);
    (("general", "carol"), ChannelMembership.Build Member false true);
    (("c2", "dave"), ChannelMembership.Build Member true true);
    (("general", "dave"), ChannelMembership.Build Member false true);
    (("c2", "victor"), ChannelMembership.Build Pending false false);
    (("c2", "bob"), ChannelMembership.Build Blocked false false);
    (("lounge", "ursula"), ChannelMembership.Build Member false true);
    (("lounge", "wendy"), ChannelMembership.Build Member false true);
    (("general", "wendy"), ChannelMembership.Build Member false false)])
(list_to_map
   [(("K", "alice"), CommunityPermissions.Build true true);
    (("K", "carol"), CommunityPermissions.Build true true);
    (("K", "dave"), CommunityPermissions.member);
    (("K", "ursula"), CommunityPermissions.member);
    (("K", "wendy"), CommunityPermissions.member)])
(list_to_map
   [("t1", Thread.Build "lounge" None);
    ("t2", Thread.Build "lounge" None);
    ("t3", Thread.Build "c2" None)])
[]
1000.

End World.

(** ** Running the gateway *)

Section Gateway.
Implicit Types (st : Store) (c k u : string) (s : Status).

Lemma getChannels_one st c :
  head (omap (λ i, channels st !! i) [c]) = channels st !! c.
Proof. cbn. by destruct (channels st !! c). Qed.

Lemma isLive_true st c ch :
  channels st !! c = Some ch → Channel.deletedAt ch = None →
  isLive st c = true.
Proof. intros Hc Hd. unfold isLive. by rewrite Hc, Hd. Qed.

Lemma isLive_inv st c :
  isLive st c = true →
  ∃ ch, channels st !! c = Some ch ∧ Channel.deletedAt ch = None.
Proof.
  unfold isLive. destruct (channels st !! c) as [ch|]; [|done].
  intros H%bool_decide_eq_true. eauto.
Qed.

(** On a live channel the resolver reports the stored row. *)
Lemma resolve_live st c u ch :
  channels st !! c = Some ch → Channel.deletedAt ch = None →
  resolveChannelPermissions st c u =
  ChannelPermissions.Build
    (ChannelMembership.isOwner (membershipOf st c u))
    (bool_decide (statusOf st c u = Member))
    (bool_decide (statusOf st c u = Pending))
    (bool_decide (statusOf st c u = Blocked))
    (ChannelMembership.receiveNotifications (membershipOf st c u)).
Proof.
  intros Hc Hd. unfold resolveChannelPermissions.
  by rewrite (isLive_true _ _ _ Hc Hd).
Qed.

(** A flag that is set is the flag of a live channel. *)
Lemma resolve_isBlocked_inv st c u :
  ChannelPermissions.isBlocked (resolveChannelPermissions st c u) = true →
  ∃ ch, channels st !! c = Some ch ∧ Channel.deletedAt ch = None ∧
        statusOf st c u = Blocked.
Proof.
  unfold resolveChannelPermissions.
  destruct (isLive st c) eqn:Hl; cbn; [|done].
  intros H%bool_decide_eq_true.
  destruct (isLive_inv _ _ Hl) as (ch & ? & ?). eauto.
Qed.

Lemma statusOf_putStatus s c u st c' u' :
  statusOf (putStatus s c u st) c' u' =
  if decide ((c, u) = (c', u')) then s else statusOf st c' u'.
Proof.
  unfold statusOf, membershipOf, putStatus; cbn.
  rewrite lookup_insert. by case_decide.
Qed.

Lemma membershipOf_putStatus_ne s c u st c' u' :
  (c, u) ≠ (c', u') →
  membershipOf (putStatus s c u st) c' u' = membershipOf st c' u'.
Proof.
  intros Hne. unfold membershipOf, putStatus; cbn.
  by rewrite lookup_insert_ne.
Qed.

Lemma isOwner_putStatus s c u st c' u' :
  ChannelMembership.isOwner (membershipOf (putStatus s c u st) c' u') =
  ChannelMembership.isOwner (membershipOf st c' u').
Proof.
  unfold membershipOf, putStatus; cbn.
  rewrite lookup_insert. case_decide; [|done]. by simplify_eq.
Qed.
End Gateway.

(** Unfolds the monadic plumbing of a resolver. *)
Ltac run :=
  unfold mbind, M_bind, mret, M_ret, getUserPermissionsInChannel,
    getUserPermissionsInCommunity, userIsMemberOfAnyChannelInCommunity,
    getChannels, reads, writes; cbn.

(** Looks the channel up and passes the not-found / deleted guard. *)
Ltac live Hc Hd := run; rewrite Hc; cbn; rewrite Hd.

(** ** togglePendingUser *)

Section TogglePendingUser.
Variables (st : Store) (c target action : string) (actor : User.t)
          (ch : Channel.t).
Hypothesis Hc : channels st !! c = Some ch.
Hypothesis Hd : Channel.deletedAt ch = None.

Lemma togglePendingUser_not_pending :
  statusOf st c target ≠ Pending →
  Mutation.togglePendingUser (TogglePendingInput.Build c target action)
    (Some actor) st =
  (UserError "This user is not currently pending access to this channel.",
   st).
Proof using Hc Hd.
  intros Hs. unfold Mutation.togglePendingUser. live Hc Hd.
  rewrite (resolve_live _ _ _ _ Hc Hd); cbn.
  by rewrite bool_decide_eq_false_2.
Qed.

(** The authorization guard as the source has it: it rejects unless the
    actor owns the channel and the community, both. *)
Lemma togglePendingUser_needs_both :
  statusOf st c target = Pending →
  ChannelMembership.isOwner (membershipOf st c (User.id actor)) &&
  CommunityPermissions.isOwner
    (resolveCommunityPermissions st (Channel.communityId ch) (User.id actor))
  = false →
  Mutation.togglePendingUser (TogglePendingInput.Build c target action)
    (Some actor) st =
  (UserError "You don't have permission to make changes to this channel.",
   st).
Proof using Hc Hd.
  intros Hs Hown. unfold Mutation.togglePendingUser. live Hc Hd.
  rewrite !(resolve_live _ _ _ _ Hc Hd); cbn.
  rewrite bool_decide_eq_true_2 by done; cbn.
  by rewrite <-negb_andb, Hown.
Qed.

Hypothesis Hpending : statusOf st c target = Pending.
Hypothesis HchanOwner :
  ChannelMembership.isOwner (membershipOf st c (User.id actor)) = true.
Hypothesis HcommOwner :
  CommunityPermissions.isOwner
    (resolveCommunityPermissions st (Channel.communityId ch) (User.id actor))
  = true.

Lemma togglePendingUser_block :
  action = "block" →
  Mutation.togglePendingUser (TogglePendingInput.Build c target action)
    (Some actor) st =
  (Value (Some ch), putStatus Blocked c target st).
Proof using All.
  intros ->. unfold Mutation.togglePendingUser. live Hc Hd.
  rewrite !(resolve_live _ _ _ _ Hc Hd); cbn.
  rewrite bool_decide_eq_true_2 by done; cbn.
  by rewrite HchanOwner, HcommOwner.
Qed.

Lemma togglePendingUser_approve :
  action = "approve" →
  Mutation.togglePendingUser (TogglePendingInput.Build c target action)
    (Some actor) st =
  (Value (Some ch),
   afterApproval c target ch actor
     (CommunityPermissions.isMember
        (resolveCommunityPermissions st (Channel.communityId ch)
           (User.id actor)))
     st).
Proof using All.
  intros ->. unfold Mutation.togglePendingUser. live Hc Hd.
  rewrite !(resolve_live _ _ _ _ Hc Hd); cbn.
  rewrite bool_decide_eq_true_2 by done; cbn.
  rewrite HchanOwner, HcommOwner; cbn.
  unfold approvePendingUserInChannel, transition, addQueue,
    createMemberInCommunity, createMemberInDefaultChannels, writes; cbn.
  change (resolveCommunityPermissions (putStatus Member c target st))
    with (resolveCommunityPermissions st).
  by destruct (CommunityPermissions.isMember _).
Qed.
End TogglePendingUser.

(** ** unblockUser *)

Section UnblockUser.
Variables (st : Store) (c target : string) (actor : User.t) (ch : Channel.t).
Hypothesis Hc : channels st !! c = Some ch.
Hypothesis Hd : Channel.deletedAt ch = None.

Lemma unblockUser_not_blocked :
  statusOf st c target ≠ Blocked →
  Mutation.unblockUser (UnblockInput.Build c target) (Some actor) st =
  (UserError "This user is not currently blocked in this channel.", st).
Proof using Hc Hd.
  intros Hs. unfold Mutation.unblockUser. live Hc Hd.
  rewrite (resolve_live _ _ _ _ Hc Hd); cbn.
  by rewrite bool_decide_eq_false_2.
Qed.

(** The guard reads [isOwner] from the promise of the community
    permissions, so only the ownership of the channel counts. *)
Lemma unblockUser_blocked :
  statusOf st c target = Blocked →
  Mutation.unblockUser (UnblockInput.Build c target) (Some actor) st =
  if ChannelMembership.isOwner (membershipOf st c (User.id actor))
  then (Value (Some ch), putStatus NoStatus c target st)
  else (UserError "You don't have permission to make changes to this channel.",
        st).
Proof using Hc Hd.
  intros Hs. unfold Mutation.unblockUser. live Hc Hd.
  rewrite !(resolve_live _ _ _ _ Hc Hd); cbn.
  rewrite bool_decide_eq_true_2 by done; cbn.
  rewrite orb_false_r.
  by destruct (ChannelMembership.isOwner _).
Qed.
End UnblockUser.

(** ** editChannel *)

(** [channels] is bound to the permissions object, whose element [0] is
    [undefined]: every edit by a signed-in user stops at the first guard. *)
Lemma editChannel_rejects st input actor :
  Mutation.editChannel input (Some actor) st =
  (UserError "This channel doesn't exist", st).
Proof. reflexivity. Qed.

(** ** Joining a list of channels *)

Section JoinChannels.
Implicit Types (st : Store) (l : list string) (c k u : string).

Lemma joinChannels_frame u l st :
  channels (joinChannels u l st) = channels st ∧
  communities (joinChannels u l st) = communities st ∧
  usersCommunities (joinChannels u l st) = usersCommunities st ∧
  threads (joinChannels u l st) = threads st ∧
  workerQueue (joinChannels u l st) = workerQueue st ∧
  now (joinChannels u l st) = now st.
Proof. induction l as [|d l IH]; cbn; [done|]. apply IH. Qed.

Lemma statusOf_joinChannels u l st c u' :
  statusOf (joinChannels u l st) c u' =
  if bool_decide (u' = u ∧ c ∈ l) then Member else statusOf st c u'.
Proof.
  induction l as [|d l IH].
  - rewrite bool_decide_eq_false_2; [done|]. intros [_ ?%elem_of_nil]. done.
  - change (joinChannels u (d :: l) st)
      with (putStatus Member d u (joinChannels u l st)).
    rewrite statusOf_putStatus, IH.
    destruct (decide ((d, u) = (c, u'))) as [[= -> ->]|Hne].
    + rewrite bool_decide_eq_true_2; [done|]. split; [done|]. left.
    + rewrite (bool_decide_ext (u' = u ∧ c ∈ l) (u' = u ∧ c ∈ d :: l));
        [done|].
      rewrite elem_of_cons. split; [intros [? ?]; split; [done|by right]|].
      intros [Hu [Hcd|?]]; [by subst|done].
Qed.
End JoinChannels.

(** ** toggleChannelSubscription *)

Section ToggleChannelSubscription.
Variables (st : Store) (c : string) (user : User.t).

Lemma toggleChannelSubscription_blocked :
  ChannelPermissions.isBlocked
    (resolveChannelPermissions st c (User.id user)) = true →
  Mutation.toggleChannelSubscription c (Some user) st =
  (UserError "You don't have permission to do that.", st).
Proof.
  intros Hb.
  destruct (resolve_isBlocked_inv _ _ _ Hb) as (ch & Hc & Hd & _).
  unfold Mutation.toggleChannelSubscription. live Hc Hd.
  by rewrite Hb.
Qed.

Variable ch : Channel.t.
Hypothesis Hc : channels st !! c = Some ch.
Hypothesis Hd : Channel.deletedAt ch = None.
Hypothesis Hnotowner :
  ChannelMembership.isOwner (membershipOf st c (User.id user)) = false.

Lemma toggleChannelSubscription_leave :
  statusOf st c (User.id user) = Member →
  Mutation.toggleChannelSubscription c (Some user) st =
  (Value (Some ch), afterLeave c (Channel.communityId ch) (User.id user) st).
Proof using All.
  intros Hs. unfold Mutation.toggleChannelSubscription. live Hc Hd.
  rewrite !(resolve_live _ _ _ _ Hc Hd); cbn.
  rewrite Hnotowner, Hs; cbn.
  unfold removeMemberInChannel, transition, removeMemberInCommunity, writes,
    afterLeave; cbn.
  repeat (case_bool_decide; [done|]). case_bool_decide; [|done].
  by destruct (isMemberOfAnyChannelInCommunity _ _ _).
Qed.

Lemma toggleChannelSubscription_join :
  statusOf st c (User.id user) = NoStatus →
  Channel.isPrivate ch = false →
  CommunityPermissions.isMember
    (resolveCommunityPermissions st (Channel.communityId ch) (User.id user))
  = false →
  Mutation.toggleChannelSubscription c (Some user) st =
  (Value (Some ch), afterJoin c (Channel.communityId ch) (User.id user) st).
Proof using All.
  intros Hs Hpub Hcm. unfold Mutation.toggleChannelSubscription. live Hc Hd.
  rewrite !(resolve_live _ _ _ _ Hc Hd); cbn.
  rewrite Hnotowner, Hs, Hpub.
  repeat (case_bool_decide; [done|]).
  unfold createMemberInChannel, transition; cbn.
  change (resolveCommunityPermissions (putStatus Member c (User.id user) st))
    with (resolveCommunityPermissions st).
  by rewrite Hcm, Hc.
Qed.
End ToggleChannelSubscription.

(** The last-channel check, read on the store once the leave is done. *)
Lemma isMemberOfAnyChannelInCommunity_after_leave st c k u :
  isMemberOfAnyChannelInCommunity (putStatus NoStatus c u st) k u = true ↔
  memberElsewhere (putStatus NoStatus c u st) k c u.
Proof.
  unfold isMemberOfAnyChannelInCommunity.
  rewrite bool_decide_eq_true. unfold map_Exists, memberElsewhere. split.
  - intros (c' & ch' & Hc' & Hk & Hs). exists c', ch'.
    split_and!; try done. intros ->.
    rewrite statusOf_putStatus in Hs. by rewrite decide_True in Hs.
  - intros (c' & ch' & Hc' & Hne & Hk & Hs). eauto.
Qed.

(** The leave itself does not change the answer. *)
Lemma memberElsewhere_putStatus s st c k u :
  memberElsewhere (putStatus s c u st) k c u ↔ memberElsewhere st k c u.
Proof.
  unfold memberElsewhere, map_Exists.
  split; intros (c' & ch' & Hc' & Hne & Hk & Hs); exists c', ch';
    (split_and!; try done);
    rewrite statusOf_putStatus in *;
    by rewrite decide_False in * by congruence.
Qed.

(** ** deleteChannel *)

Section DeleteThreads.
Implicit Types (st : Store) (l : list string).

Lemma deleteThreads_cons x l st :
  (mapM deleteThread (x :: l) st).2 =
  (mapM deleteThread l (deleteThread x st).2).2.
Proof.
  cbn. unfold mbind, M_bind, deleteThread, writes; cbn.
  by match goal with
     | |- context [@mapM M _ _ _ _ ?f l ?s] => destruct (@mapM M _ _ _ _ f l s)
     end.
Qed.

Lemma deleteThreads_frame l st :
  channels (mapM deleteThread l st).2 = channels st ∧
  usersChannels (mapM deleteThread l st).2 = usersChannels st ∧
  usersCommunities (mapM deleteThread l st).2 = usersCommunities st ∧
  now (mapM deleteThread l st).2 = now st.
Proof.
  revert st. induction l as [|x l IH]; intros st; [done|].
  rewrite deleteThreads_cons.
  by destruct (IH (deleteThread x st).2) as (-> & -> & -> & ->).
Qed.

Lemma deletedThread_idemp date t :
  deletedThread date (deletedThread date t) = deletedThread date t.
Proof. done. Qed.

Lemma deleteThreads_lookup l st tid :
  threads (mapM deleteThread l st).2 !! tid =
  if bool_decide (tid ∈ l)
  then deletedThread (now st) <$> threads st !! tid
  else threads st !! tid.
Proof.
  revert st. induction l as [|x l IH]; intros st.
  - by rewrite bool_decide_eq_false_2 by apply not_elem_of_nil.
  - rewrite deleteThreads_cons, IH. unfold deleteThread, writes; cbn.
    rewrite lookup_alter.
    destruct (decide (x = tid)) as [->|Hne].
    + rewrite (bool_decide_eq_true_2 (tid ∈ tid :: l)) by left.
      case_bool_decide; [|done].
      destruct (threads st !! tid); [|done]. cbn.
      by rewrite deletedThread_idemp.
    + rewrite (bool_decide_ext (tid ∈ x :: l) (tid ∈ l)); [done|].
      rewrite elem_of_cons. split; [by intros [->|?]|by right].
Qed.

Lemma elem_of_threadsOfChannel c st tid :
  tid ∈ threadsOfChannel c st ↔
  ∃ t, threads st !! tid = Some t ∧ Thread.channelId t = c.
Proof.
  unfold threadsOfChannel. rewrite list_elem_of_fmap. split.
  - intros ([tid' t] & -> & Hin). cbn.
    apply elem_of_map_to_list, map_lookup_filter_Some in Hin. eauto.
  - intros (t & Ht & Hch). exists (tid, t). split; [done|].
    apply elem_of_map_to_list, map_lookup_filter_Some. done.
Qed.
End DeleteThreads.

Section DeleteChannel.
Variables (st : Store) (c : string) (actor : User.t) (ch : Channel.t).
Hypothesis Hc : channels st !! c = Some ch.
Hypothesis Hd : Channel.deletedAt ch = None.

Lemma deleteChannel_unauthorized :
  ChannelMembership.isOwner (membershipOf st c (User.id actor)) = false →
  CommunityPermissions.isOwner
    (resolveCommunityPermissions st (Channel.communityId ch) (User.id actor))
  = false →
  Mutation.deleteChannel c (Some actor) st =
  (UserError "You don't have permission to make changes to this channel", st).
Proof using Hc Hd.
  intros H1 H2. unfold Mutation.deleteChannel. live Hc Hd.
  rewrite !(resolve_live _ _ _ _ Hc Hd); cbn.
  by rewrite H1, H2.
Qed.

Lemma deleteChannel_authorized :
  ChannelMembership.isOwner (membershipOf st c (User.id actor)) ||
  CommunityPermissions.isOwner
    (resolveCommunityPermissions st (Channel.communityId ch) (User.id actor))
  = true →
  Mutation.deleteChannel c (Some actor) st =
  (if Nat.eqb (length (threadsOfChannel c st)) 0 then Value None
   else Promises (threadsOfChannel c st),
   afterDelete c st).
Proof using Hc Hd.
  intros Hown. unfold Mutation.deleteChannel. live Hc Hd.
  rewrite !(resolve_live _ _ _ _ Hc Hd); cbn.
  rewrite <-negb_orb, Hown; cbn.
  unfold deleteChannel, getThreadsByChannelToDelete, removeMembersInChannel,
    afterDelete, writes, reads; cbn.
  change (threadsOfChannel c (setChannels _ st)) with (threadsOfChannel c st).
  destruct (threadsOfChannel c st) as [|tid l] eqn:Hl; [done|].
  cbn [length Nat.eqb].
  by match goal with
     | |- context [@mapM M _ _ _ _ ?f ?ids ?s] =>
         destruct (@mapM M _ _ _ _ f ids s)
     end.
Qed.

Lemma channelDeleted_channel :
  channels (afterDelete c st) !! c = Some (deletedChannel (now st) ch).
Proof using Hc.
  unfold afterDelete.
  destruct (deleteThreads_frame (threadsOfChannel c st)
    ((removeMembersInChannel c)
       (setChannels (alter (deletedChannel (now st)) c) st)).2)
    as (-> & _).
  cbn. by rewrite lookup_alter_eq, Hc.
Qed.

Lemma channelDeleted_status u :
  statusOf (afterDelete c st) c u = NoStatus.
Proof.
  unfold afterDelete, statusOf, membershipOf.
  destruct (deleteThreads_frame (threadsOfChannel c st)
    ((removeMembersInChannel c)
       (setChannels (alter (deletedChannel (now st)) c) st)).2)
    as (_ & -> & _).
  cbn. rewrite map_lookup_imap.
  destruct (usersChannels st !! (c, u)); cbn; [|done].
  by rewrite bool_decide_eq_true_2.
Qed.

Lemma channelDeleted_thread tid t :
  threads st !! tid = Some t → Thread.channelId t = c →
  threads (afterDelete c st) !! tid = Some (deletedThread (now st) t).
Proof.
  intros Ht Hch. unfold afterDelete.
  rewrite deleteThreads_lookup. cbn.
  rewrite bool_decide_eq_true_2 by (apply elem_of_threadsOfChannel; eauto).
  by rewrite Ht.
Qed.
End DeleteChannel.

(** ** The membership claims *)

(** An approval by an actor who is a member of the community (as its owner
    is) leaves the target without community membership and outside the
    default channels, whatever the target held. *)
Lemma approve_by_member_skips_community st c target actor ch :
  channels st !! c = Some ch → Channel.deletedAt ch = None →
  statusOf st c target = Pending →
  ChannelMembership.isOwner (membershipOf st c (User.id actor)) = true →
  resolveCommunityPermissions st (Channel.communityId ch) (User.id actor) =
    CommunityPermissions.Build true true →
  let st' :=
    (Mutation.togglePendingUser (TogglePendingInput.Build c target "approve")
       (Some actor) st).2 in
  statusOf st' c target = Member ∧
  usersCommunities st' = usersCommunities st ∧
  ∀ d, d ≠ c → statusOf st' d target = statusOf st d target.
Proof.
  intros Hc Hd Hp Ho Hk.
  rewrite (togglePendingUser_approve st c target "approve" actor ch)
    by (by rewrite ?Hk).
  rewrite Hk; cbn. split_and!; [|done|].
  - change (statusOf (putStatus Member c target st) c target = Member).
    rewrite statusOf_putStatus. by rewrite decide_True.
  - intros d Hne.
    change (statusOf (putStatus Member c target st) d target
            = statusOf st d target).
    rewrite statusOf_putStatus. by rewrite decide_False by congruence.
Qed.

(** C1. An authorized approval of a pending user makes the user a Member
    of the channel, but the user who lacks community membership is not
    granted it, nor joined to the default channels: the resolver tests
    the community membership of the approving actor, not of the afterApproval
    user.  Here [alice] owns the community [K] and the private channel
    [c2], and [victor], pending in [c2], holds no membership of [K], whose
    default channels are [general] and [announcements]. *)
Theorem approve_pending_skips_community_join :
  let input := TogglePendingInput.Build "c2" "victor" "approve" in
  let run := Mutation.togglePendingUser input (Some World.alice) World.store in
  statusOf World.store "c2" "victor" = Pending ∧
  resolveChannelPermissions World.store "c2" "alice" =
    ChannelPermissions.Build true true false false true ∧
  resolveCommunityPermissions World.store "K" "alice" =
    CommunityPermissions.Build true true ∧
  resolveCommunityPermissions World.store "K" "victor" =
    CommunityPermissions.allFalse ∧
  defaultChannelsOf World.store "K" = ["general"; "announcements"] ∧
  run.1 = Value (Some World.c2) ∧
  statusOf run.2 "c2" "victor" = Member ∧
  resolveCommunityPermissions run.2 "K" "victor" =
    CommunityPermissions.allFalse ∧
  usersCommunities run.2 !! ("K", "victor") = None ∧
  statusOf run.2 "general" "victor" = NoStatus ∧
  statusOf run.2 "announcements" "victor" = NoStatus.
Proof. vm_compute. done. Qed.

(** C2. A member who is not the owner leaves a channel: the status becomes
    None and nothing else changes among the channel memberships; the
    community membership is removed if and only if, in the store after
    the leave, the user has Member status in no other channel of the
    community (and this is the same as in the store before the leave). *)
Theorem leave_removes_community_iff_last st c user ch :
  channels st !! c = Some ch →
  Channel.deletedAt ch = None →
  statusOf st c (User.id user) = Member →
  ChannelMembership.isOwner (membershipOf st c (User.id user)) = false →
  let k := Channel.communityId ch in
  let u := User.id user in
  let run := Mutation.toggleChannelSubscription c (Some user) st in
  run.1 = Value (Some ch) ∧
  statusOf run.2 c u = NoStatus ∧
  (∀ c' u', (c', u') ≠ (c, u) →
            membershipOf run.2 c' u' = membershipOf st c' u') ∧
  (memberElsewhere run.2 k c u →
   usersCommunities run.2 = usersCommunities st) ∧
  (¬ memberElsewhere run.2 k c u →
   usersCommunities run.2 = delete (k, u) (usersCommunities st)) ∧
  (memberElsewhere run.2 k c u ↔ memberElsewhere st k c u).
Proof.
  intros Hc Hd Hs Ho k u run. subst run.
  rewrite (toggleChannelSubscription_leave st c user ch) by done.
  cbn [fst snd]. fold k u. unfold afterLeave.
  pose proof (isMemberOfAnyChannelInCommunity_after_leave st c k u) as Hcheck.
  pose proof (memberElsewhere_putStatus NoStatus st c k u) as Hsame.
  assert (statusOf (putStatus NoStatus c u st) c u = NoStatus) as Hnone.
  { rewrite statusOf_putStatus. by rewrite decide_True. }
  destruct (isMemberOfAnyChannelInCommunity (putStatus NoStatus c u st) k u).
  - split_and!; try done.
    + intros c' u' Hne. by apply membershipOf_putStatus_ne.
    + intros Hno. destruct Hno. by apply Hcheck.
  - assert (¬ memberElsewhere (putStatus NoStatus c u st) k c u) as Hno.
    { intros Hin. by apply Hcheck in Hin. }
    split_and!; try done.
    intros c' u' Hne.
    change (membershipOf (putStatus NoStatus c u st) c' u'
            = membershipOf st c' u').
    by apply membershipOf_putStatus_ne.
Qed.

Lemma leave_removes_community_iff_last_witness :
  channels World.store !! "lounge" = Some World.lounge ∧
  Channel.deletedAt World.lounge = None ∧
  statusOf World.store "lounge" "ursula" = Member ∧
  ChannelMembership.isOwner (membershipOf World.store "lounge" "ursula")
    = false ∧
  let run :=
    Mutation.toggleChannelSubscription "lounge" (Some World.ursula)
      World.store in
  statusOf run.2 "lounge" "ursula" = NoStatus ∧
  usersCommunities run.2 = delete ("K", "ursula") (usersCommunities World.store).
Proof.
  split_and!; [done..|].
  destruct (leave_removes_community_iff_last World.store "lounge" World.ursula
              World.lounge) as (_ & Hs & _ & _ & Hlast & _); [done..|].
  split; [exact Hs|]. apply Hlast.
  apply (bool_decide_unpack _). vm_compute. exact I.
Defined.

(** [wendy] is a member of [lounge] and of [general]: leaving [lounge]
    keeps her membership of the community. *)
Example leave_keeps_community_when_member_elsewhere :
  let run :=
    Mutation.toggleChannelSubscription "lounge" (Some World.wendy)
      World.store in
  statusOf run.2 "lounge" "wendy" = NoStatus ∧
  statusOf run.2 "general" "wendy" = Member ∧
  usersCommunities run.2 !! ("K", "wendy") = Some CommunityPermissions.member.
Proof. vm_compute. done. Qed.

(** C3. An actor who owns the parent community but not the channel cannot
    unblock: the resolver reads [isOwner] from the promise of the
    community permissions, which it does not await.  Here [carol] owns
    the community [K] but not the channel [c2], in which [bob] is
    blocked. *)
Theorem community_owner_cannot_unblock :
  let run :=
    Mutation.unblockUser (UnblockInput.Build "c2" "bob") (Some World.carol)
      World.store in
  statusOf World.store "c2" "bob" = Blocked ∧
  resolveCommunityPermissions World.store "K" "carol" =
    CommunityPermissions.Build true true ∧
  ChannelPermissions.isOwner
    (resolveChannelPermissions World.store "c2" "carol") = false ∧
  run = (UserError
           "You don't have permission to make changes to this channel.",
         World.store) ∧
  statusOf run.2 "c2" "bob" = Blocked.
Proof. vm_compute. done. Qed.

(** C4. One of the two ownerships is not sufficient to block a pending
    user: the guard rejects unless the actor owns the channel and the
    community.  Here [victor] is pending in [c2]; [dave] owns the channel
    [c2] only and [carol] owns the community [K] only. *)
Theorem single_ownership_cannot_block :
  let input := TogglePendingInput.Build "c2" "victor" "block" in
  let denied :=
    UserError "You don't have permission to make changes to this channel." in
  statusOf World.store "c2" "victor" = Pending ∧
  ChannelPermissions.isOwner
    (resolveChannelPermissions World.store "c2" "dave") = true ∧
  CommunityPermissions.isOwner
    (resolveCommunityPermissions World.store "K" "dave") = false ∧
  ChannelPermissions.isOwner
    (resolveChannelPermissions World.store "c2" "carol") = false ∧
  CommunityPermissions.isOwner
    (resolveCommunityPermissions World.store "K" "carol") = true ∧
  Mutation.togglePendingUser input (Some World.dave) World.store =
    (denied, World.store) ∧
  Mutation.togglePendingUser input (Some World.carol) World.store =
    (denied, World.store).
Proof. vm_compute. done. Qed.

(** C5. A user with no status in a public, live channel and no membership
    of its community joins: the user becomes a Member of the channel, is
    granted CommunityMembership = Member, and becomes a Member of every
    default channel of the community. *)
Theorem join_public_channel_joins_community st c user ch :
  channels st !! c = Some ch →
  Channel.deletedAt ch = None →
  Channel.isPrivate ch = false →
  statusOf st c (User.id user) = NoStatus →
  ChannelMembership.isOwner (membershipOf st c (User.id user)) = false →
  CommunityPermissions.isMember
    (resolveCommunityPermissions st (Channel.communityId ch) (User.id user))
  = false →
  let k := Channel.communityId ch in
  let u := User.id user in
  let run := Mutation.toggleChannelSubscription c (Some user) st in
  run.1 = Value (Some ch) ∧
  statusOf run.2 c u = Member ∧
  usersCommunities run.2 !! (k, u) = Some CommunityPermissions.member ∧
  (∀ com, communities st !! k = Some com → Community.deletedAt com = None →
          resolveCommunityPermissions run.2 k u = CommunityPermissions.member) ∧
  (∀ d, d ∈ defaultChannelsOf st k → statusOf run.2 d u = Member).
Proof.
  intros Hc Hd Hpub Hs Ho Hk k u run. subst run.
  rewrite (toggleChannelSubscription_join st c user ch) by done.
  cbn [fst snd]. fold k u. unfold afterJoin, joinCommunity.
  set (st1 := setUsersCommunities _ (putStatus Member c u st)).
  change (defaultChannelsOf (putStatus Member c u st) k)
    with (defaultChannelsOf st k).
  destruct (joinChannels_frame u (defaultChannelsOf st k) st1)
    as (_ & Hcom & Hrows & _).
  assert (usersCommunities (joinChannels u (defaultChannelsOf st k) st1)
            !! (k, u) = Some CommunityPermissions.member) as Hrow.
  { rewrite Hrows. apply lookup_insert_eq. }
  split_and!; [done| |done| |].
  - rewrite statusOf_joinChannels. case_bool_decide; [done|].
    subst st1. change (statusOf (putStatus Member c u st) c u = Member).
    rewrite statusOf_putStatus. by rewrite decide_True.
  - intros com Hcomm Hlive.
    unfold resolveCommunityPermissions, communityRowOf.
    rewrite Hcom, Hrow. subst st1; cbn. by rewrite Hcomm, Hlive.
  - intros d Hin. rewrite statusOf_joinChannels.
    by rewrite bool_decide_eq_true_2.
Qed.

Lemma join_public_channel_joins_community_witness :
  channels World.store !! "lounge" = Some World.lounge ∧
  Channel.deletedAt World.lounge = None ∧
  Channel.isPrivate World.lounge = false ∧
  statusOf World.store "lounge" "zed" = NoStatus ∧
  ChannelMembership.isOwner (membershipOf World.store "lounge" "zed") = false ∧
  CommunityPermissions.isMember
    (resolveCommunityPermissions World.store "K" "zed") = false ∧
  let run :=
    Mutation.toggleChannelSubscription "lounge" (Some World.zed) World.store in
  statusOf run.2 "lounge" "zed" = Member ∧
  resolveCommunityPermissions run.2 "K" "zed" = CommunityPermissions.member ∧
  statusOf run.2 "general" "zed" = Member ∧
  statusOf run.2 "announcements" "zed" = Member.
Proof.
  split_and!; [done..|].
  destruct (join_public_channel_joins_community World.store "lounge" World.zed
              World.lounge) as (_ & Hs & _ & Hk & Hdef); [done..|].
  split_and!.
  - exact Hs.
  - by eapply Hk.
  - apply Hdef. by left.
  - apply Hdef. right. by left.
Defined.

(** C6. A user whose permissions in the channel show [isBlocked] gets a
    domain error from [toggleChannelSubscription], and the store is left
    as it was. *)
Theorem blocked_user_cannot_toggle st c user :
  ChannelPermissions.isBlocked
    (resolveChannelPermissions st c (User.id user)) = true →
  Mutation.toggleChannelSubscription c (Some user) st =
  (UserError "You don't have permission to do that.", st).
Proof. apply toggleChannelSubscription_blocked. Qed.

Lemma blocked_user_cannot_toggle_witness :
  ChannelPermissions.isBlocked
    (resolveChannelPermissions World.store "c2" "bob") = true ∧
  Mutation.toggleChannelSubscription "c2" (Some World.bob) World.store =
  (UserError "You don't have permission to do that.", World.store).
Proof.
  split; [done|].
  by apply (blocked_user_cannot_toggle World.store "c2" World.bob).
Defined.

(** C7. [togglePendingUser] on a target who is not Pending fails and
    leaves the store as it was, whatever the action; for a signed-in
    actor and a live channel the error is the 'not pending' one. *)
Theorem toggle_non_pending_user_fails st c target action user :
  statusOf st c target ≠ Pending →
  let input := TogglePendingInput.Build c target action in
  (∃ message,
     Mutation.togglePendingUser input user st = (UserError message, st)) ∧
  (∀ actor ch,
     user = Some actor →
     channels st !! c = Some ch → Channel.deletedAt ch = None →
     Mutation.togglePendingUser input user st =
     (UserError "This user is not currently pending access to this channel.",
      st)).
Proof.
  intros Hs input. split.
  - destruct user as [actor|]; [|by eexists].
    destruct (channels st !! c) as [ch|] eqn:Hc.
    + destruct (Channel.deletedAt ch) as [date|] eqn:Hd.
      * eexists. unfold Mutation.togglePendingUser. live Hc Hd. done.
      * eexists.
        by apply (togglePendingUser_not_pending st c target action actor ch).
    + eexists. unfold Mutation.togglePendingUser. run. by rewrite Hc.
  - intros actor ch -> Hc Hd.
    by apply (togglePendingUser_not_pending st c target action actor ch).
Qed.

Lemma toggle_non_pending_user_fails_witness :
  statusOf World.store "c2" "dave" ≠ Pending ∧
  Mutation.togglePendingUser (TogglePendingInput.Build "c2" "dave" "approve")
    (Some World.alice) World.store =
  (UserError "This user is not currently pending access to this channel.",
   World.store).
Proof.
  assert (statusOf World.store "c2" "dave" ≠ Pending) as Hs by done.
  split; [exact Hs|].
  destruct (toggle_non_pending_user_fails World.store "c2" "dave" "approve"
              (Some World.alice) Hs) as [_ Hmsg].
  by apply (Hmsg World.alice World.c2).
Defined.

(** C8. No edit goes through: the resolver binds [channels] to the
    permissions object and [currentUserChannelPermissions] to the array of
    channels, so the channel to evaluate is [undefined].  Here [alice]
    owns the private channel [c2] and its community and edits [c2] to
    public; [victor], pending in [c2], stays pending. *)
Theorem edit_to_public_leaves_pending :
  let input := EditChannelInput.Build "c2" "core-team" false in
  let run := Mutation.editChannel input (Some World.alice) World.store in
  channels World.store !! "c2" = Some World.c2 ∧
  Channel.isPrivate World.c2 = true ∧
  Channel.deletedAt World.c2 = None ∧
  resolveChannelPermissions World.store "c2" "alice" =
    ChannelPermissions.Build true true false false true ∧
  resolveCommunityPermissions World.store "K" "alice" =
    CommunityPermissions.Build true true ∧
  statusOf World.store "c2" "victor" = Pending ∧
  run = (UserError "This channel doesn't exist", World.store) ∧
  statusOf run.2 "c2" "victor" = Pending ∧
  channels run.2 !! "c2" = Some World.c2.
Proof. vm_compute. done. Qed.

(** C9. An authorized [deleteChannel] on a live channel soft-deletes the
    channel and every thread of the channel, and leaves no user with a
    status in the channel, whether the channel has threads or not. *)
Theorem delete_channel_cascades st c actor ch :
  channels st !! c = Some ch →
  Channel.deletedAt ch = None →
  ChannelMembership.isOwner (membershipOf st c (User.id actor)) ||
  CommunityPermissions.isOwner
    (resolveCommunityPermissions st (Channel.communityId ch) (User.id actor))
  = true →
  let run := Mutation.deleteChannel c (Some actor) st in
  run.1 = (if Nat.eqb (length (threadsOfChannel c st)) 0 then Value None
           else Promises (threadsOfChannel c st)) ∧
  channels run.2 !! c = Some (deletedChannel (now st) ch) ∧
  (∀ tid t, threads st !! tid = Some t → Thread.channelId t = c →
            threads run.2 !! tid = Some (deletedThread (now st) t)) ∧
  (∀ u, statusOf run.2 c u = NoStatus).
Proof.
  intros Hc Hd Hown run. subst run.
  rewrite (deleteChannel_authorized st c actor ch) by done.
  cbn [fst snd]. split_and!; [done| | |].
  - by apply channelDeleted_channel.
  - apply channelDeleted_thread.
  - apply channelDeleted_status.
Qed.

Lemma delete_channel_cascades_witness :
  channels World.store !! "lounge" = Some World.lounge ∧
  Channel.deletedAt World.lounge = None ∧
  ChannelMembership.isOwner (membershipOf World.store "lounge" "alice") ||
  CommunityPermissions.isOwner
    (resolveCommunityPermissions World.store "K" "alice") = true ∧
  let run := Mutation.deleteChannel "lounge" (Some World.alice) World.store in
  Channel.deletedAt <$> channels run.2 !! "lounge" = Some (Some 1000) ∧
  threads run.2 !! "t1" = Some (Thread.Build "lounge" (Some 1000)) ∧
  threads run.2 !! "t2" = Some (Thread.Build "lounge" (Some 1000)) ∧
  statusOf run.2 "lounge" "ursula" = NoStatus ∧
  statusOf run.2 "lounge" "wendy" = NoStatus.
Proof.
  split_and!; [done..|].
  destruct (delete_channel_cascades World.store "lounge" World.alice
              World.lounge) as (_ & Hch & Hth & Hst); [done..|].
  split_and!.
  - by rewrite Hch.
  - by apply (Hth "t1" (Thread.Build "lounge" None)).
  - by apply (Hth "t2" (Thread.Build "lounge" None)).
  - apply Hst.
  - apply Hst.
Defined.

(** The channel [announcements] has no thread: the resolver returns
    early, after the memberships were removed. *)
Example delete_channel_without_threads :
  let run :=
    Mutation.deleteChannel "announcements" (Some World.alice) World.store in
  threadsOfChannel "announcements" World.store = [] ∧
  statusOf World.store "announcements" "alice" = Member ∧
  run.1 = Value None ∧
  Channel.deletedAt <$> channels run.2 !! "announcements" = Some (Some 1000) ∧
  statusOf run.2 "announcements" "alice" = NoStatus.
Proof. vm_compute. done. Qed.

(** C10. On a live channel [togglePendingUser] and [unblockUser] validate
    the state of the target before the ownership of the actor: when the
    target is not Pending (respectively not Blocked), every signed-in
    actor, with or without ownership, gets the error that describes the
    state of the target. *)
Theorem target_state_checked_before_ownership st c target action actor ch :
  channels st !! c = Some ch →
  Channel.deletedAt ch = None →
  (statusOf st c target ≠ Pending →
   Mutation.togglePendingUser (TogglePendingInput.Build c target action)
     (Some actor) st =
   (UserError "This user is not currently pending access to this channel.",
    st)) ∧
  (statusOf st c target ≠ Blocked →
   Mutation.unblockUser (UnblockInput.Build c target) (Some actor) st =
   (UserError "This user is not currently blocked in this channel.", st)).
Proof.
  intros Hc Hd. split; intros Hs.
  - by apply (togglePendingUser_not_pending st c target action actor ch).
  - by apply (unblockUser_not_blocked st c target actor ch).
Qed.

Lemma target_state_checked_before_ownership_witness :
  channels World.store !! "c2" = Some World.c2 ∧
  Channel.deletedAt World.c2 = None ∧
  resolveChannelPermissions World.store "c2" "erin" =
    ChannelPermissions.allFalse ∧
  resolveCommunityPermissions World.store "K" "erin" =
    CommunityPermissions.allFalse ∧
  Mutation.togglePendingUser (TogglePendingInput.Build "c2" "dave" "approve")
    (Some World.erin) World.store =
  (UserError "This user is not currently pending access to this channel.",
   World.store) ∧
  Mutation.unblockUser (UnblockInput.Build "c2" "dave") (Some World.erin)
    World.store =
  (UserError "This user is not currently blocked in this channel.",
   World.store).
Proof.
  split_and!; [done..| |];
    by apply (target_state_checked_before_ownership World.store "c2" "dave"
                "approve" World.erin World.c2).
Defined.

(** ** No write before a rejection *)

(** Case analysis over every guard of a resolver. *)
Ltac guards :=
  repeat (cbn in *;
          match goal with
          | H : (_, _) = (_, _) |- _ => injection H as ? ?; subst
          | H : context [match ?x with _ => _ end] |- _ =>
              destruct x eqn:?
          | H : context [if ?b then _ else _] |- _ => destruct b eqn:?
          | H : context [let (_, _) := ?x in _] |- _ => destruct x eqn:?
          end);
  try done.

(** X1. Whenever a resolver settles to a [UserError], it has written
    nothing: every [return new UserError] comes before the first write. *)
Theorem rejected_commands_write_nothing :
  (∀ reserved newId input user,
     writesNothingOnError (Mutation.createChannel reserved newId input user)) ∧
  (∀ c user, writesNothingOnError (Mutation.deleteChannel c user)) ∧
  (∀ input user, writesNothingOnError (Mutation.editChannel input user)) ∧
  (∀ c user, writesNothingOnError (Mutation.toggleChannelSubscription c user)) ∧
  (∀ c user,
     writesNothingOnError (Mutation.toggleChannelNotifications c user)) ∧
  (∀ input user, writesNothingOnError (Mutation.togglePendingUser input user)) ∧
  (∀ input user, writesNothingOnError (Mutation.unblockUser input user)).
Proof.
  unfold writesNothingOnError.
  split_and!; intros; revert select (_ = (UserError _, _)).
  - unfold Mutation.createChannel. run.
    unfold getCommunities, getChannelBySlug, reads. intros H. guards.
  - unfold Mutation.deleteChannel. run. intros H. guards.
  - unfold Mutation.editChannel. run. intros H. guards.
  - unfold Mutation.toggleChannelSubscription. run. intros H. guards.
  - unfold Mutation.toggleChannelNotifications. run. intros H. guards.
  - unfold Mutation.togglePendingUser. run. intros H. guards.
  - unfold Mutation.unblockUser. run. intros H. guards.
Qed.

Lemma rejected_commands_write_nothing_witness :
  (Mutation.togglePendingUser (TogglePendingInput.Build "c2" "victor" "block")
     (Some World.dave) World.store).1
  = UserError "You don't have permission to make changes to this channel." ∧
  (Mutation.togglePendingUser (TogglePendingInput.Build "c2" "victor" "block")
     (Some World.dave) World.store).2
  = World.store.
Proof.
  split; [done|].
  destruct rejected_commands_write_nothing as (_ & _ & _ & _ & _ & Hpending & _).
  by apply (Hpending (TogglePendingInput.Build "c2" "victor" "block")
              (Some World.dave) World.store _
              "You don't have permission to make changes to this channel.").
Defined.

(** ** Stores that differ in one row *)

Lemma onlyRowDiffers_putStatus s c u st :
  onlyRowDiffers c u st (putStatus s c u st).
Proof.
  unfold onlyRowDiffers, putStatus; cbn. split_and!; try done.
  intros c' u' Hne. by rewrite lookup_insert_ne.
Qed.

Lemma onlyRowDiffers_membershipOf c u st st' c' u' :
  onlyRowDiffers c u st st' → (c', u') ≠ (c, u) →
  membershipOf st' c' u' = membershipOf st c' u'.
Proof.
  intros (_ & _ & _ & _ & _ & _ & Hrows) Hne. unfold membershipOf.
  by rewrite Hrows.
Qed.

Lemma isLive_channels st st' c :
  channels st' = channels st → isLive st' c = isLive st c.
Proof. unfold isLive. by intros ->. Qed.

(** ** A channel that does not exist *)

Lemma resolvers_stop_at_missing_channel st c actor :
  isLive st c = false →
  Mutation.deleteChannel c (Some actor) st =
    (UserError "Channel doesn't exist", st) ∧
  Mutation.toggleChannelSubscription c (Some actor) st =
    (UserError "This channel doesn't exist", st) ∧
  (∀ target action,
     Mutation.togglePendingUser (TogglePendingInput.Build c target action)
       (Some actor) st =
     (UserError "This channel doesn't exist", st)) ∧
  (∀ target,
     Mutation.unblockUser (UnblockInput.Build c target) (Some actor) st =
     (UserError "This channel doesn't exist", st)).
Proof.
  unfold isLive. intros Hl.
  unfold Mutation.deleteChannel, Mutation.toggleChannelSubscription,
    Mutation.togglePendingUser, Mutation.unblockUser. run.
  destruct (channels st !! c) as [ch|]; cbn; [|done].
  destruct (Channel.deletedAt ch); [done|].
  by rewrite bool_decide_eq_true_2 in Hl.
Qed.

(** X2. On a channel that is missing or soft-deleted, every resolver that
    looks the channel up stops at its first guard, whoever the signed-in
    actor is and whatever the actor's permissions are: the 'doesn't exist'
    error, and the store as it was. *)
Theorem missing_channel_rejected st c actor :
  isLive st c = false →
  Mutation.deleteChannel c (Some actor) st =
    (UserError "Channel doesn't exist", st) ∧
  Mutation.toggleChannelSubscription c (Some actor) st =
    (UserError "This channel doesn't exist", st) ∧
  (∀ target action,
     Mutation.togglePendingUser (TogglePendingInput.Build c target action)
       (Some actor) st =
     (UserError "This channel doesn't exist", st)) ∧
  (∀ target,
     Mutation.unblockUser (UnblockInput.Build c target) (Some actor) st =
     (UserError "This channel doesn't exist", st)).
Proof. apply resolvers_stop_at_missing_channel. Qed.

Lemma missing_channel_rejected_witness :
  isLive World.store "nowhere" = false ∧
  Mutation.toggleChannelSubscription "nowhere" (Some World.alice) World.store =
    (UserError "This channel doesn't exist", World.store).
Proof.
  split; [done|].
  by destruct (missing_channel_rejected World.store "nowhere" World.alice)
    as (_ & Htoggle & _).
Defined.

(** ** More of toggleChannelSubscription *)

Section ToggleChannelSubscriptionBranches.
Variables (st : Store) (c : string) (user : User.t) (ch : Channel.t).
Hypothesis Hc : channels st !! c = Some ch.
Hypothesis Hd : Channel.deletedAt ch = None.

Lemma toggleChannelSubscription_owner :
  statusOf st c (User.id user) ≠ Blocked →
  ChannelMembership.isOwner (membershipOf st c (User.id user)) = true →
  Mutation.toggleChannelSubscription c (Some user) st =
  (UserError "Owners of a community can't join or leave their own channel.",
   st).
Proof using Hc Hd.
  intros Hs Ho. unfold Mutation.toggleChannelSubscription. live Hc Hd.
  rewrite !(resolve_live _ _ _ _ Hc Hd); cbn.
  by rewrite bool_decide_eq_false_2, Ho.
Qed.

Hypothesis Hnotowner :
  ChannelMembership.isOwner (membershipOf st c (User.id user)) = false.

Lemma toggleChannelSubscription_cancel :
  statusOf st c (User.id user) = Pending →
  Mutation.toggleChannelSubscription c (Some user) st =
  (Value (Some ch), putStatus NoStatus c (User.id user) st).
Proof using All.
  intros Hs. unfold Mutation.toggleChannelSubscription. live Hc Hd.
  rewrite !(resolve_live _ _ _ _ Hc Hd); cbn.
  rewrite Hnotowner, Hs.
  repeat (case_bool_decide; [done|]). case_bool_decide; [|done].
  unfold removeMemberInChannel, transition; cbn. by rewrite Hc.
Qed.

Lemma toggleChannelSubscription_request :
  statusOf st c (User.id user) = NoStatus →
  Channel.isPrivate ch = true →
  Mutation.toggleChannelSubscription c (Some user) st =
  (Value (Some ch),
   setWorkerQueue
     (λ q, (q ++ [PrivateChannelRequestSent (User.id user) ch])%list)
     (putStatus Pending c (User.id user) st)).
Proof using All.
  intros Hs Hpriv. unfold Mutation.toggleChannelSubscription. live Hc Hd.
  rewrite !(resolve_live _ _ _ _ Hc Hd); cbn.
  rewrite Hnotowner, Hs, Hpriv.
  repeat (case_bool_decide; [done|]).
  unfold createOrUpdatePendingUserInChannel, transition, addQueue, writes; cbn.
  by rewrite Hc.
Qed.

Lemma toggleChannelSubscription_join_member :
  statusOf st c (User.id user) = NoStatus →
  Channel.isPrivate ch = false →
  CommunityPermissions.isMember
    (resolveCommunityPermissions st (Channel.communityId ch) (User.id user))
  = true →
  Mutation.toggleChannelSubscription c (Some user) st =
  (Value (Some ch), putStatus Member c (User.id user) st).
Proof using All.
  intros Hs Hpub Hcm. unfold Mutation.toggleChannelSubscription. live Hc Hd.
  rewrite !(resolve_live _ _ _ _ Hc Hd); cbn.
  rewrite Hnotowner, Hs, Hpub.
  repeat (case_bool_decide; [done|]).
  unfold createMemberInChannel, transition; cbn.
  change (resolveCommunityPermissions (putStatus Member c (User.id user) st))
    with (resolveCommunityPermissions st).
  by rewrite Hcm, Hc.
Qed.
End ToggleChannelSubscriptionBranches.

(** X3. The owner of a channel cannot join or leave it: unless blocked
    there, the owner gets an error and nothing is written. *)
Theorem owner_cannot_toggle_subscription st c user ch :
  channels st !! c = Some ch →
  Channel.deletedAt ch = None →
  statusOf st c (User.id user) ≠ Blocked →
  ChannelMembership.isOwner (membershipOf st c (User.id user)) = true →
  Mutation.toggleChannelSubscription c (Some user) st =
  (UserError "Owners of a community can't join or leave their own channel.",
   st).
Proof. apply toggleChannelSubscription_owner. Qed.

Lemma owner_cannot_toggle_subscription_witness :
  channels World.store !! "lounge" = Some World.lounge ∧
  Channel.deletedAt World.lounge = None ∧
  statusOf World.store "lounge" "alice" ≠ Blocked ∧
  ChannelMembership.isOwner (membershipOf World.store "lounge" "alice") = true ∧
  Mutation.toggleChannelSubscription "lounge" (Some World.alice) World.store =
  (UserError "Owners of a community can't join or leave their own channel.",
   World.store).
Proof.
  split_and!; [done..|].
  by apply (owner_cannot_toggle_subscription World.store "lounge" World.alice
              World.lounge).
Defined.

(** X4. Joining a private channel is a request: the user becomes Pending,
    one 'private channel request sent' job is enqueued, and nothing else
    changes; in particular no community membership is granted. *)
Theorem private_join_is_a_request st c user ch :
  channels st !! c = Some ch →
  Channel.deletedAt ch = None →
  Channel.isPrivate ch = true →
  statusOf st c (User.id user) = NoStatus →
  ChannelMembership.isOwner (membershipOf st c (User.id user)) = false →
  let u := User.id user in
  let run := Mutation.toggleChannelSubscription c (Some user) st in
  run.1 = Value (Some ch) ∧
  statusOf run.2 c u = Pending ∧
  workerQueue run.2 = (workerQueue st ++ [PrivateChannelRequestSent u ch])%list ∧
  channels run.2 = channels st ∧
  usersCommunities run.2 = usersCommunities st ∧
  threads run.2 = threads st ∧
  (∀ c' u', (c', u') ≠ (c, u) →
            membershipOf run.2 c' u' = membershipOf st c' u').
Proof.
  intros Hc Hd Hpriv Hs Ho u run. subst run.
  rewrite (toggleChannelSubscription_request st c user ch) by done.
  cbn [fst snd]. fold u. split_and!; try done.
  - change (statusOf (putStatus Pending c u st) c u = Pending).
    rewrite statusOf_putStatus. by rewrite decide_True.
  - intros c' u' Hne.
    change (membershipOf (putStatus Pending c u st) c' u'
            = membershipOf st c' u').
    by apply membershipOf_putStatus_ne.
Qed.

Lemma private_join_is_a_request_witness :
  channels World.store !! "c2" = Some World.c2 ∧
  Channel.deletedAt World.c2 = None ∧
  Channel.isPrivate World.c2 = true ∧
  statusOf World.store "c2" "zed" = NoStatus ∧
  ChannelMembership.isOwner (membershipOf World.store "c2" "zed") = false ∧
  let run :=
    Mutation.toggleChannelSubscription "c2" (Some World.zed) World.store in
  statusOf run.2 "c2" "zed" = Pending ∧
  workerQueue run.2 = [PrivateChannelRequestSent "zed" World.c2] ∧
  usersCommunities run.2 = usersCommunities World.store.
Proof.
  split_and!; [done..|].
  destruct (private_join_is_a_request World.store "c2" World.zed World.c2)
    as (_ & Hs & Hq & _ & Hk & _); [done..|].
  by split_and!.
Defined.

(** X5. A pending user who toggles again withdraws the request: the
    status goes back to None and nothing else changes. *)
Theorem pending_toggle_withdraws_request st c user ch :
  channels st !! c = Some ch →
  Channel.deletedAt ch = None →
  statusOf st c (User.id user) = Pending →
  ChannelMembership.isOwner (membershipOf st c (User.id user)) = false →
  let u := User.id user in
  let run := Mutation.toggleChannelSubscription c (Some user) st in
  run.1 = Value (Some ch) ∧
  statusOf run.2 c u = NoStatus ∧
  onlyRowDiffers c u st run.2.
Proof.
  intros Hc Hd Hs Ho u run. subst run.
  rewrite (toggleChannelSubscription_cancel st c user ch) by done.
  cbn [fst snd]. fold u. split_and!; [done| |].
  - rewrite statusOf_putStatus. by rewrite decide_True.
  - apply onlyRowDiffers_putStatus.
Qed.

Lemma pending_toggle_withdraws_request_witness :
  channels World.store !! "c2" = Some World.c2 ∧
  Channel.deletedAt World.c2 = None ∧
  statusOf World.store "c2" "victor" = Pending ∧
  ChannelMembership.isOwner (membershipOf World.store "c2" "victor") = false ∧
  statusOf
    (Mutation.toggleChannelSubscription "c2" (Some World.victor) World.store).2
    "c2" "victor" = NoStatus.
Proof.
  split_and!; [done..|].
  by destruct (pending_toggle_withdraws_request World.store "c2" World.victor
                 World.c2) as (_ & Hs & _).
Defined.


(** X6. Toggling twice on a private channel sends the request and
    withdraws it: the user ends with no status, no community membership
    was touched, and the one job of the request stays enqueued. *)
Theorem request_then_withdraw st c user ch :
  channels st !! c = Some ch →
  Channel.deletedAt ch = None →
  Channel.isPrivate ch = true →
  statusOf st c (User.id user) = NoStatus →
  ChannelMembership.isOwner (membershipOf st c (User.id user)) = false →
  let u := User.id user in
  let requested := (Mutation.toggleChannelSubscription c (Some user) st).2 in
  let run := Mutation.toggleChannelSubscription c (Some user) requested in
  run.1 = Value (Some ch) ∧
  statusOf run.2 c u = NoStatus ∧
  workerQueue run.2 = (workerQueue st ++ [PrivateChannelRequestSent u ch])%list ∧
  usersCommunities run.2 = usersCommunities st ∧
  (∀ c' u', (c', u') ≠ (c, u) →
            membershipOf run.2 c' u' = membershipOf st c' u').
Proof.
  intros Hc Hd Hpriv Hs Ho u requested run. subst run requested.
  rewrite (toggleChannelSubscription_request st c user ch) by done.
  cbn [fst snd]. fold u.
  set (st1 := setWorkerQueue _ (putStatus Pending c u st)).
  assert (statusOf st1 c u = Pending) as Hs1.
  { change (statusOf (putStatus Pending c u st) c u = Pending).
    rewrite statusOf_putStatus. by rewrite decide_True. }
  assert (ChannelMembership.isOwner (membershipOf st1 c u) = false) as Ho1.
  { change (ChannelMembership.isOwner
              (membershipOf (putStatus Pending c u st) c u) = false).
    by rewrite isOwner_putStatus. }
  rewrite (toggleChannelSubscription_cancel st1 c user ch) by done.
  cbn [fst snd]. fold u. split_and!; try done.
  - rewrite statusOf_putStatus. by rewrite decide_True.
  - intros c' u' Hne. rewrite membershipOf_putStatus_ne by done.
    change (membershipOf (putStatus Pending c u st) c' u'
            = membershipOf st c' u').
    by apply membershipOf_putStatus_ne.
Qed.

Lemma request_then_withdraw_witness :
  channels World.store !! "c2" = Some World.c2 ∧
  Channel.deletedAt World.c2 = None ∧
  Channel.isPrivate World.c2 = true ∧
  statusOf World.store "c2" "zed" = NoStatus ∧
  ChannelMembership.isOwner (membershipOf World.store "c2" "zed") = false ∧
  let requested :=
    (Mutation.toggleChannelSubscription "c2" (Some World.zed) World.store).2 in
  let run :=
    Mutation.toggleChannelSubscription "c2" (Some World.zed) requested in
  statusOf run.2 "c2" "zed" = NoStatus ∧
  workerQueue run.2 = [PrivateChannelRequestSent "zed" World.c2].
Proof.
  split_and!; [done..|].
  destruct (request_then_withdraw World.store "c2" World.zed World.c2)
    as (_ & Hs & Hq & _); [done..|].
  by split.
Defined.

(** X7. A member of the community who joins a public channel becomes a
    Member of that channel and nothing else is written: no community
    membership, no default channel. *)
Theorem community_member_joins_one_channel st c user ch :
  channels st !! c = Some ch →
  Channel.deletedAt ch = None →
  Channel.isPrivate ch = false →
  statusOf st c (User.id user) = NoStatus →
  ChannelMembership.isOwner (membershipOf st c (User.id user)) = false →
  CommunityPermissions.isMember
    (resolveCommunityPermissions st (Channel.communityId ch) (User.id user))
  = true →
  let u := User.id user in
  let run := Mutation.toggleChannelSubscription c (Some user) st in
  run.1 = Value (Some ch) ∧
  statusOf run.2 c u = Member ∧
  onlyRowDiffers c u st run.2.
Proof.
  intros Hc Hd Hpub Hs Ho Hk u run. subst run.
  rewrite (toggleChannelSubscription_join_member st c user ch) by done.
  cbn [fst snd]. fold u. split_and!; [done| |].
  - rewrite statusOf_putStatus. by rewrite decide_True.
  - apply onlyRowDiffers_putStatus.
Qed.

Lemma community_member_joins_one_channel_witness :
  channels World.store !! "lounge" = Some World.lounge ∧
  Channel.deletedAt World.lounge = None ∧
  Channel.isPrivate World.lounge = false ∧
  statusOf World.store "lounge" "carol" = NoStatus ∧
  ChannelMembership.isOwner (membershipOf World.store "lounge" "carol")
    = false ∧
  CommunityPermissions.isMember
    (resolveCommunityPermissions World.store "K" "carol") = true ∧
  let run :=
    Mutation.toggleChannelSubscription "lounge" (Some World.carol)
      World.store in
  statusOf run.2 "lounge" "carol" = Member ∧
  statusOf run.2 "announcements" "carol" = NoStatus.
Proof.
  split_and!; [done..|].
  destruct (community_member_joins_one_channel World.store "lounge"
              World.carol World.lounge) as (_ & Hs & Hrows); [done..|].
  split; [exact Hs|].
  unfold statusOf.
  by rewrite (onlyRowDiffers_membershipOf _ _ _ _ _ _ Hrows).
Defined.



(** ** More of deleteChannel *)

Lemma deleteThreads_frame_rest l st :
  communities (mapM deleteThread l st).2 = communities st ∧
  workerQueue (mapM deleteThread l st).2 = workerQueue st.
Proof.
  revert st. induction l as [|x l IH]; intros st; [done|].
  rewrite deleteThreads_cons.
  by destruct (IH (deleteThread x st).2) as (-> & ->).
Qed.

(** X9. A signed-in actor who owns neither the channel nor its community
    cannot delete the channel: an error, and nothing is written. *)
Theorem delete_needs_an_ownership st c actor ch :
  channels st !! c = Some ch →
  Channel.deletedAt ch = None →
  ChannelMembership.isOwner (membershipOf st c (User.id actor)) = false →
  CommunityPermissions.isOwner
    (resolveCommunityPermissions st (Channel.communityId ch) (User.id actor))
  = false →
  Mutation.deleteChannel c (Some actor) st =
  (UserError "You don't have permission to make changes to this channel", st).
Proof. apply deleteChannel_unauthorized. Qed.

Lemma delete_needs_an_ownership_witness :
  channels World.store !! "lounge" = Some World.lounge ∧
  Channel.deletedAt World.lounge = None ∧
  statusOf World.store "lounge" "ursula" = Member ∧
  ChannelMembership.isOwner (membershipOf World.store "lounge" "ursula")
    = false ∧
  CommunityPermissions.isOwner
    (resolveCommunityPermissions World.store "K" "ursula") = false ∧
  Mutation.deleteChannel "lounge" (Some World.ursula) World.store =
  (UserError "You don't have permission to make changes to this channel",
   World.store).
Proof.
  split_and!; [done..|].
  by apply (delete_needs_an_ownership World.store "lounge" World.ursula
              World.lounge).
Defined.

(** X10. An authorized [deleteChannel] touches the deleted channel only:
    the other channels, the memberships and the threads of the other
    channels, the communities, the community memberships and the worker
    queue are as they were. *)
Theorem delete_channel_touches_one_channel st c actor ch :
  channels st !! c = Some ch →
  Channel.deletedAt ch = None →
  ChannelMembership.isOwner (membershipOf st c (User.id actor)) ||
  CommunityPermissions.isOwner
    (resolveCommunityPermissions st (Channel.communityId ch) (User.id actor))
  = true →
  let run := Mutation.deleteChannel c (Some actor) st in
  (∀ c', c' ≠ c → channels run.2 !! c' = channels st !! c') ∧
  (∀ c' u', c' ≠ c →
            usersChannels run.2 !! (c', u') = usersChannels st !! (c', u')) ∧
  (∀ tid t, threads st !! tid = Some t → Thread.channelId t ≠ c →
            threads run.2 !! tid = Some t) ∧
  communities run.2 = communities st ∧
  usersCommunities run.2 = usersCommunities st ∧
  workerQueue run.2 = workerQueue st.
Proof.
  intros Hc Hd Hown run. subst run.
  rewrite (deleteChannel_authorized st c actor ch) by done.
  cbn [fst snd]. unfold afterDelete.
  set (st2 := ((removeMembersInChannel c)
                 (setChannels (alter (deletedChannel (now st)) c) st)).2).
  destruct (deleteThreads_frame (threadsOfChannel c st) st2)
    as (Hch & Hrows & Hcom & _).
  destruct (deleteThreads_frame_rest (threadsOfChannel c st) st2)
    as (Hk & Hq).
  split_and!.
  - intros c' Hne. rewrite Hch. subst st2; cbn.
    by rewrite lookup_alter_ne.
  - intros c' u' Hne. rewrite Hrows. subst st2; cbn.
    rewrite map_lookup_imap.
    destruct (usersChannels st !! (c', u')); cbn; [|done].
    by rewrite bool_decide_eq_false_2.
  - intros tid t Ht Hne. rewrite deleteThreads_lookup.
    rewrite bool_decide_eq_false_2; [by subst st2|].
    intros (t' & Ht' & Hin)%elem_of_threadsOfChannel. congruence.
  - by rewrite Hk.
  - by rewrite Hcom.
  - by rewrite Hq.
Qed.

Lemma delete_channel_touches_one_channel_witness :
  channels World.store !! "lounge" = Some World.lounge ∧
  Channel.deletedAt World.lounge = None ∧
  ChannelMembership.isOwner (membershipOf World.store "lounge" "alice") ||
  CommunityPermissions.isOwner
    (resolveCommunityPermissions World.store "K" "alice") = true ∧
  let run := Mutation.deleteChannel "lounge" (Some World.alice) World.store in
  channels run.2 !! "general" = Some World.general ∧
  usersChannels run.2 !! ("general", "wendy") =
    Some (ChannelMembership.Build Member false false) ∧
  threads run.2 !! "t3" = Some (Thread.Build "c2" None) ∧
  usersCommunities run.2 = usersCommunities World.store.
Proof.
  split_and!; [done..|].
  destruct (delete_channel_touches_one_channel World.store "lounge"
              World.alice World.lounge)
    as (Hch & Hrows & Hth & _ & Hk & _); [done..|].
  split_and!.
  - by rewrite Hch.
  - by rewrite Hrows.
  - by apply Hth.
  - exact Hk.
Defined.

(** X11. A channel is deleted once.  After an authorized [deleteChannel],
    a second one fails with 'doesn't exist' and changes nothing, and so do
    the membership commands on the channel, for every signed-in actor. *)
Theorem deleted_channel_is_gone st c actor ch other :
  channels st !! c = Some ch →
  Channel.deletedAt ch = None →
  ChannelMembership.isOwner (membershipOf st c (User.id actor)) ||
  CommunityPermissions.isOwner
    (resolveCommunityPermissions st (Channel.communityId ch) (User.id actor))
  = true →
  let deleted := (Mutation.deleteChannel c (Some actor) st).2 in
  Mutation.deleteChannel c (Some other) deleted =
    (UserError "Channel doesn't exist", deleted) ∧
  Mutation.toggleChannelSubscription c (Some other) deleted =
    (UserError "This channel doesn't exist", deleted) ∧
  (∀ target action,
     Mutation.togglePendingUser (TogglePendingInput.Build c target action)
       (Some other) deleted =
     (UserError "This channel doesn't exist", deleted)) ∧
  (∀ target,
     Mutation.unblockUser (UnblockInput.Build c target) (Some other) deleted =
     (UserError "This channel doesn't exist", deleted)).
Proof.
  intros Hc Hd Hown deleted. subst deleted.
  rewrite (deleteChannel_authorized st c actor ch) by done.
  cbn [fst snd]. apply resolvers_stop_at_missing_channel.
  unfold isLive. by rewrite (channelDeleted_channel st c ch Hc).
Qed.

Lemma deleted_channel_is_gone_witness :
  channels World.store !! "lounge" = Some World.lounge ∧
  Channel.deletedAt World.lounge = None ∧
  ChannelMembership.isOwner (membershipOf World.store "lounge" "alice") ||
  CommunityPermissions.isOwner
    (resolveCommunityPermissions World.store "K" "alice") = true ∧
  let deleted :=
    (Mutation.deleteChannel "lounge" (Some World.alice) World.store).2 in
  Mutation.deleteChannel "lounge" (Some World.carol) deleted =
    (UserError "Channel doesn't exist", deleted) ∧
  Mutation.toggleChannelSubscription "lounge" (Some World.ursula) deleted =
    (UserError "This channel doesn't exist", deleted).
Proof.
  split_and!; [done..|].
  destruct (deleted_channel_is_gone World.store "lounge" World.alice
              World.lounge World.carol) as (Hdel & _); [done..|].
  destruct (deleted_channel_is_gone World.store "lounge" World.alice
              World.lounge World.ursula) as (_ & Htog & _); [done..|].
  by split.
Defined.

(** ** More of togglePendingUser *)

Lemma afterApproval_facts c target ch actor b st :
  let st' := afterApproval c target ch actor b st in
  statusOf st' c target = Member ∧
  channels st' = channels st ∧
  threads st' = threads st ∧
  workerQueue st' =
    (workerQueue st ++
     [PrivateChannelRequestApproved target (Channel.id ch)
        (Channel.communityId ch) (User.id actor)])%list.
Proof.
  unfold afterApproval. destruct b; cbn.
  - split_and!; try done.
    change (statusOf (putStatus Member c target st) c target = Member).
    rewrite statusOf_putStatus. by rewrite decide_True.
  - unfold joinCommunity.
    set (l := defaultChannelsOf _ _). set (st0 := setUsersCommunities _ _).
    destruct (joinChannels_frame target l st0) as (Hch & _ & _ & Hth & Hq & _).
    split_and!.
    + change (statusOf (joinChannels target l st0) c target = Member).
      rewrite statusOf_joinChannels. case_bool_decide; [done|].
      change (statusOf (putStatus Member c target st) c target = Member).
      rewrite statusOf_putStatus. by rewrite decide_True.
    + by rewrite Hch.
    + by rewrite Hth.
    + by rewrite Hq.
Qed.

(** X12. An actor who owns the channel and the community blocks a pending
    user: the status becomes Blocked and nothing else is written; no job
    is enqueued and no community membership changes. *)
Theorem block_pending_user st c target actor ch :
  channels st !! c = Some ch →
  Channel.deletedAt ch = None →
  statusOf st c target = Pending →
  ChannelMembership.isOwner (membershipOf st c (User.id actor)) = true →
  CommunityPermissions.isOwner
    (resolveCommunityPermissions st (Channel.communityId ch) (User.id actor))
  = true →
  let run :=
    Mutation.togglePendingUser (TogglePendingInput.Build c target "block")
      (Some actor) st in
  run.1 = Value (Some ch) ∧
  statusOf run.2 c target = Blocked ∧
  onlyRowDiffers c target st run.2.
Proof.
  intros Hc Hd Hs Ho Hk run. subst run.
  rewrite (togglePendingUser_block st c target "block" actor ch) by done.
  cbn [fst snd]. split_and!; [done| |].
  - rewrite statusOf_putStatus. by rewrite decide_True.
  - apply onlyRowDiffers_putStatus.
Qed.

Lemma block_pending_user_witness :
  channels World.store !! "c2" = Some World.c2 ∧
  Channel.deletedAt World.c2 = None ∧
  statusOf World.store "c2" "victor" = Pending ∧
  ChannelMembership.isOwner (membershipOf World.store "c2" "alice") = true ∧
  CommunityPermissions.isOwner
    (resolveCommunityPermissions World.store "K" "alice") = true ∧
  statusOf
    (Mutation.togglePendingUser (TogglePendingInput.Build "c2" "victor" "block")
       (Some World.alice) World.store).2 "c2" "victor" = Blocked.
Proof.
  split_and!; [done..|].
  by destruct (block_pending_user World.store "c2" "victor" World.alice
                 World.c2) as (_ & Hs & _).
Defined.

(** X13. A blocked request stays blocked: after the block, the user's own
    [toggleChannelSubscription] is rejected, and no later
    [togglePendingUser], by any signed-in actor and with any action, can
    approve the user; none of these writes. *)
Theorem blocked_request_stays_blocked st c target actor ch :
  channels st !! c = Some ch →
  Channel.deletedAt ch = None →
  statusOf st c target = Pending →
  ChannelMembership.isOwner (membershipOf st c (User.id actor)) = true →
  CommunityPermissions.isOwner
    (resolveCommunityPermissions st (Channel.communityId ch) (User.id actor))
  = true →
  let blocked :=
    (Mutation.togglePendingUser (TogglePendingInput.Build c target "block")
       (Some actor) st).2 in
  (∀ user, User.id user = target →
     Mutation.toggleChannelSubscription c (Some user) blocked =
     (UserError "You don't have permission to do that.", blocked)) ∧
  (∀ other action,
     Mutation.togglePendingUser (TogglePendingInput.Build c target action)
       (Some other) blocked =
     (UserError "This user is not currently pending access to this channel.",
      blocked)).
Proof.
  intros Hc Hd Hs Ho Hk blocked. subst blocked.
  rewrite (togglePendingUser_block st c target "block" actor ch) by done.
  cbn [fst snd].
  assert (statusOf (putStatus Blocked c target st) c target = Blocked) as Hb.
  { rewrite statusOf_putStatus. by rewrite decide_True. }
  split.
  - intros user <-. apply toggleChannelSubscription_blocked.
    rewrite (resolve_live _ _ _ ch) by done. cbn.
    by rewrite bool_decide_eq_true_2.
  - intros other action.
    apply (togglePendingUser_not_pending _ c target action other ch);
      [done..|]. by rewrite Hb.
Qed.

Lemma blocked_request_stays_blocked_witness :
  channels World.store !! "c2" = Some World.c2 ∧
  Channel.deletedAt World.c2 = None ∧
  statusOf World.store "c2" "victor" = Pending ∧
  ChannelMembership.isOwner (membershipOf World.store "c2" "alice") = true ∧
  CommunityPermissions.isOwner
    (resolveCommunityPermissions World.store "K" "alice") = true ∧
  let blocked :=
    (Mutation.togglePendingUser (TogglePendingInput.Build "c2" "victor" "block")
       (Some World.alice) World.store).2 in
  Mutation.toggleChannelSubscription "c2" (Some World.victor) blocked =
    (UserError "You don't have permission to do that.", blocked) ∧
  Mutation.togglePendingUser (TogglePendingInput.Build "c2" "victor" "approve")
    (Some World.alice) blocked =
    (UserError "This user is not currently pending access to this channel.",
     blocked).
Proof.
  split_and!; [done..|].
  destruct (blocked_request_stays_blocked World.store "c2" "victor"
              World.alice World.c2) as (Htog & Happ); [done..|].
  split; [by apply Htog | apply Happ].
Defined.

(** X14. An action other than 'block' and 'approve' falls through both
    branches: even for an authorized actor and a pending user the
    resolver settles to [undefined] and writes nothing. *)
Theorem unknown_action_is_ignored st c target action actor ch :
  channels st !! c = Some ch →
  Channel.deletedAt ch = None →
  statusOf st c target = Pending →
  ChannelMembership.isOwner (membershipOf st c (User.id actor)) = true →
  CommunityPermissions.isOwner
    (resolveCommunityPermissions st (Channel.communityId ch) (User.id actor))
  = true →
  action ≠ "block" → action ≠ "approve" →
  Mutation.togglePendingUser (TogglePendingInput.Build c target action)
    (Some actor) st =
  (Value None, st).
Proof.
  intros Hc Hd Hs Ho Hk Hb Ha. unfold Mutation.togglePendingUser. live Hc Hd.
  rewrite !(resolve_live _ _ _ _ Hc Hd); cbn.
  rewrite bool_decide_eq_true_2 by done; cbn.
  rewrite Ho, Hk; cbn.
  apply String.eqb_neq in Hb, Ha. by rewrite Hb, Ha.
Qed.

Lemma unknown_action_is_ignored_witness :
  channels World.store !! "c2" = Some World.c2 ∧
  Channel.deletedAt World.c2 = None ∧
  statusOf World.store "c2" "victor" = Pending ∧
  ChannelMembership.isOwner (membershipOf World.store "c2" "alice") = true ∧
  CommunityPermissions.isOwner
    (resolveCommunityPermissions World.store "K" "alice") = true ∧
  Mutation.togglePendingUser (TogglePendingInput.Build "c2" "victor" "Approve")
    (Some World.alice) World.store =
  (Value None, World.store).
Proof.
  split_and!; [done..|].
  by apply (unknown_action_is_ignored World.store "c2" "victor" "Approve"
              World.alice World.c2).
Defined.

(** X15. An authorized approval enqueues exactly one 'private channel
    request approved' job, for the approved user and naming the channel,
    its community and the moderator, after the writes, on either branch;
    the approved user is a Member of the channel, and no channel record
    changes. *)
Theorem approval_notifies_once st c target actor ch :
  channels st !! c = Some ch →
  Channel.deletedAt ch = None →
  statusOf st c target = Pending →
  ChannelMembership.isOwner (membershipOf st c (User.id actor)) = true →
  CommunityPermissions.isOwner
    (resolveCommunityPermissions st (Channel.communityId ch) (User.id actor))
  = true →
  let run :=
    Mutation.togglePendingUser (TogglePendingInput.Build c target "approve")
      (Some actor) st in
  run.1 = Value (Some ch) ∧
  statusOf run.2 c target = Member ∧
  workerQueue run.2 =
    (workerQueue st ++
     [PrivateChannelRequestApproved target (Channel.id ch)
        (Channel.communityId ch) (User.id actor)])%list ∧
  channels run.2 = channels st.
Proof.
  intros Hc Hd Hs Ho Hk run. subst run.
  rewrite (togglePendingUser_approve st c target "approve" actor ch) by done.
  cbn [fst snd].
  destruct (afterApproval_facts c target ch actor
              (CommunityPermissions.isMember
                 (resolveCommunityPermissions st (Channel.communityId ch)
                    (User.id actor))) st) as (? & ? & _ & ?).
  by split_and!.
Qed.

Lemma approval_notifies_once_witness :
  channels World.store !! "c2" = Some World.c2 ∧
  Channel.deletedAt World.c2 = None ∧
  statusOf World.store "c2" "victor" = Pending ∧
  ChannelMembership.isOwner (membershipOf World.store "c2" "alice") = true ∧
  CommunityPermissions.isOwner
    (resolveCommunityPermissions World.store "K" "alice") = true ∧
  workerQueue
    (Mutation.togglePendingUser
       (TogglePendingInput.Build "c2" "victor" "approve")
       (Some World.alice) World.store).2 =
  [PrivateChannelRequestApproved "victor" "c2" "K" "alice"].
Proof.
  split_and!; [done..|].
  by destruct (approval_notifies_once World.store "c2" "victor" World.alice
                 World.c2) as (_ & _ & Hq & _).
Defined.

(** X16. An approval cannot be repeated: after an authorized approval,
    every further [togglePendingUser] on the same user, by any signed-in
    actor and with any action, fails with the 'not pending' error and
    writes nothing. *)
Theorem approved_user_is_not_pending st c target actor ch other action :
  channels st !! c = Some ch →
  Channel.deletedAt ch = None →
  statusOf st c target = Pending →
  ChannelMembership.isOwner (membershipOf st c (User.id actor)) = true →
  CommunityPermissions.isOwner
    (resolveCommunityPermissions st (Channel.communityId ch) (User.id actor))
  = true →
  let approved :=
    (Mutation.togglePendingUser (TogglePendingInput.Build c target "approve")
       (Some actor) st).2 in
  Mutation.togglePendingUser (TogglePendingInput.Build c target action)
    (Some other) approved =
  (UserError "This user is not currently pending access to this channel.",
   approved).
Proof.
  intros Hc Hd Hs Ho Hk approved. subst approved.
  rewrite (togglePendingUser_approve st c target "approve" actor ch) by done.
  cbn [fst snd].
  destruct (afterApproval_facts c target ch actor
              (CommunityPermissions.isMember
                 (resolveCommunityPermissions st (Channel.communityId ch)
                    (User.id actor))) st) as (Hm & Hch & _).
  apply (togglePendingUser_not_pending _ c target action other ch).
  - by rewrite Hch.
  - done.
  - by rewrite Hm.
Qed.

Lemma approved_user_is_not_pending_witness :
  channels World.store !! "c2" = Some World.c2 ∧
  Channel.deletedAt World.c2 = None ∧
  statusOf World.store "c2" "victor" = Pending ∧
  ChannelMembership.isOwner (membershipOf World.store "c2" "alice") = true ∧
  CommunityPermissions.isOwner
    (resolveCommunityPermissions World.store "K" "alice") = true ∧
  let approved :=
    (Mutation.togglePendingUser
       (TogglePendingInput.Build "c2" "victor" "approve")
       (Some World.alice) World.store).2 in
  Mutation.togglePendingUser (TogglePendingInput.Build "c2" "victor" "approve")
    (Some World.alice) approved =
  (UserError "This user is not currently pending access to this channel.",
   approved).
Proof.
  split_and!; [done..|].
  by apply (approved_user_is_not_pending World.store "c2" "victor" World.alice
              World.c2 World.alice "approve").
Defined.

(** ** More of unblockUser *)

(** X17. For a blocked user of a live channel the outcome of [unblockUser]
    is decided by the actor's ownership of the channel alone, whatever
    the actor's permissions in the community: the owner of the channel
    sets the status to None and nothing else changes; any other signed-in
    actor gets the permission error and nothing is written. *)
Theorem unblock_follows_channel_ownership st c target actor ch :
  channels st !! c = Some ch →
  Channel.deletedAt ch = None →
  statusOf st c target = Blocked →
  let run :=
    Mutation.unblockUser (UnblockInput.Build c target) (Some actor) st in
  (ChannelMembership.isOwner (membershipOf st c (User.id actor)) = true →
   run.1 = Value (Some ch) ∧
   statusOf run.2 c target = NoStatus ∧
   onlyRowDiffers c target st run.2) ∧
  (ChannelMembership.isOwner (membershipOf st c (User.id actor)) = false →
   run =
   (UserError "You don't have permission to make changes to this channel.",
    st)).
Proof.
  intros Hc Hd Hs run. subst run.
  rewrite (unblockUser_blocked st c target actor ch) by done.
  split; intros ->; [|done]. cbn [fst snd]. split_and!; [done| |].
  - rewrite statusOf_putStatus. by rewrite decide_True.
  - apply onlyRowDiffers_putStatus.
Qed.

Lemma unblock_follows_channel_ownership_witness :
  channels World.store !! "c2" = Some World.c2 ∧
  Channel.deletedAt World.c2 = None ∧
  statusOf World.store "c2" "bob" = Blocked ∧
  ChannelMembership.isOwner (membershipOf World.store "c2" "dave") = true ∧
  CommunityPermissions.isOwner
    (resolveCommunityPermissions World.store "K" "dave") = false ∧
  statusOf
    (Mutation.unblockUser (UnblockInput.Build "c2" "bob") (Some World.dave)
       World.store).2 "c2" "bob" = NoStatus.
Proof.
  split_and!; [done..|].
  destruct (unblock_follows_channel_ownership World.store "c2" "bob"
              World.dave World.c2) as (Hown & _); [done..|].
  by destruct Hown as (_ & Hs & _).
Defined.

(** X18. After the owner of the channel unblocked a user, a second
    [unblockUser] fails with the 'not blocked' error, and the user can
    come back through [toggleChannelSubscription]: Pending again on a
    private channel, Member on a public one. *)
Theorem unblocked_user_can_come_back st c user actor ch :
  channels st !! c = Some ch →
  Channel.deletedAt ch = None →
  statusOf st c (User.id user) = Blocked →
  ChannelMembership.isOwner (membershipOf st c (User.id user)) = false →
  ChannelMembership.isOwner (membershipOf st c (User.id actor)) = true →
  let unblocked :=
    (Mutation.unblockUser (UnblockInput.Build c (User.id user)) (Some actor)
       st).2 in
  (∀ other,
     Mutation.unblockUser (UnblockInput.Build c (User.id user)) (Some other)
       unblocked =
     (UserError "This user is not currently blocked in this channel.",
      unblocked)) ∧
  statusOf (Mutation.toggleChannelSubscription c (Some user) unblocked).2
    c (User.id user)
  = (if Channel.isPrivate ch then Pending else Member).
Proof.
  intros Hc Hd Hs Hou Hoa unblocked. subst unblocked.
  rewrite (unblockUser_blocked st c (User.id user) actor ch) by done.
  rewrite Hoa. cbn [fst snd].
  set (st1 := putStatus NoStatus c (User.id user) st).
  assert (statusOf st1 c (User.id user) = NoStatus) as Hs1.
  { unfold st1. rewrite statusOf_putStatus. by rewrite decide_True. }
  assert (ChannelMembership.isOwner (membershipOf st1 c (User.id user))
          = false) as Ho1.
  { unfold st1. by rewrite isOwner_putStatus. }
  assert (channels st1 !! c = Some ch) as Hc1 by done.
  split.
  - intros other.
    apply (unblockUser_not_blocked st1 c (User.id user) other ch);
      [done..|]. by rewrite Hs1.
  - destruct (Channel.isPrivate ch) eqn:Hpriv.
    + rewrite (toggleChannelSubscription_request st1 c user ch) by done.
      cbn [snd].
      change (statusOf (putStatus Pending c (User.id user) st1) c (User.id user)
              = Pending).
      rewrite statusOf_putStatus. by rewrite decide_True.
    + destruct (CommunityPermissions.isMember
                  (resolveCommunityPermissions st1 (Channel.communityId ch)
                     (User.id user))) eqn:Hk.
      * rewrite (toggleChannelSubscription_join_member st1 c user ch) by done.
        cbn [snd]. rewrite statusOf_putStatus. by rewrite decide_True.
      * rewrite (toggleChannelSubscription_join st1 c user ch) by done.
        cbn [snd]. unfold afterJoin, joinCommunity.
        rewrite statusOf_joinChannels. case_bool_decide; [done|].
        change (statusOf (putStatus Member c (User.id user) st1) c
                  (User.id user) = Member).
        rewrite statusOf_putStatus. by rewrite decide_True.
Qed.

Lemma unblocked_user_can_come_back_witness :
  channels World.store !! "c2" = Some World.c2 ∧
  Channel.deletedAt World.c2 = None ∧
  statusOf World.store "c2" "bob" = Blocked ∧
  ChannelMembership.isOwner (membershipOf World.store "c2" "bob") = false ∧
  ChannelMembership.isOwner (membershipOf World.store "c2" "alice") = true ∧
  let unblocked :=
    (Mutation.unblockUser (UnblockInput.Build "c2" "bob") (Some World.alice)
       World.store).2 in
  Mutation.unblockUser (UnblockInput.Build "c2" "bob") (Some World.alice)
    unblocked =
  (UserError "This user is not currently blocked in this channel.",
   unblocked) ∧
  statusOf (Mutation.toggleChannelSubscription "c2" (Some World.bob)
              unblocked).2 "c2" "bob" = Pending.
Proof.
  split_and!; [done..|].
  destruct (unblocked_user_can_come_back World.store "c2" World.bob
              World.alice World.c2) as (Hagain & Hback); [done..|].
  split; [apply Hagain | exact Hback].
Defined.

(** ** toggleChannelNotifications *)

Lemma resolve_isMember_inv st c u :
  ChannelPermissions.isMember (resolveChannelPermissions st c u) = true →
  ∃ ch, channels st !! c = Some ch ∧ Channel.deletedAt ch = None ∧
        statusOf st c u = Member.
Proof.
  unfold resolveChannelPermissions.
  destruct (isLive st c) eqn:Hl; cbn; [|done].
  intros H%bool_decide_eq_true.
  destruct (isLive_inv _ _ Hl) as (ch & ? & ?). eauto.
Qed.

(** The row of a member, with the notifications flag set to [value]. *)
Lemma toggleChannelNotifications_member st c user :
  ChannelPermissions.isMember
    (resolveChannelPermissions st c (User.id user)) = true →
  Mutation.toggleChannelNotifications c (Some user) st =
  (Value (channels st !! c),
   setUsersChannels
     <[(c, User.id user) :=
         ChannelMembership.Build
           (ChannelMembership.status (membershipOf st c (User.id user)))
           (ChannelMembership.isOwner (membershipOf st c (User.id user)))
           (negb (ChannelMembership.receiveNotifications
                    (membershipOf st c (User.id user))))]> st).
Proof.
  intros Hm.
  destruct (resolve_isMember_inv _ _ _ Hm) as (ch & Hc & Hd & Hs).
  unfold Mutation.toggleChannelNotifications. run.
  rewrite !(resolve_live _ _ _ _ Hc Hd); cbn.
  rewrite Hs. rewrite bool_decide_eq_false_2 by done.
  rewrite bool_decide_eq_true_2 by done. cbn.
  unfold toggleUserChannelNotifications, writes; cbn.
  by destruct (channels st !! c).
Qed.

(** X19. [toggleChannelNotifications] never reports its permission error:
    for a signed-in user who is not a member of the channel (blocked,
    pending, unrelated, or on a missing channel) the error built in the
    first callback is dropped by the second, the resolver settles to the
    channel record, and nothing is written. *)
Theorem notifications_error_is_dropped st c user :
  ChannelPermissions.isMember
    (resolveChannelPermissions st c (User.id user)) = false →
  Mutation.toggleChannelNotifications c (Some user) st =
  (Value (channels st !! c), st).
Proof.
  intros Hm. unfold Mutation.toggleChannelNotifications. run.
  rewrite Hm, orb_true_r. cbn. by destruct (channels st !! c).
Qed.

Lemma notifications_error_is_dropped_witness :
  ChannelPermissions.isBlocked
    (resolveChannelPermissions World.store "c2" "bob") = true ∧
  ChannelPermissions.isMember
    (resolveChannelPermissions World.store "c2" "bob") = false ∧
  Mutation.toggleChannelNotifications "c2" (Some World.bob) World.store =
  (Value (Some World.c2), World.store).
Proof.
  split_and!; [done..|].
  by rewrite (notifications_error_is_dropped World.store "c2" World.bob).
Defined.

(** X20. A member's [toggleChannelNotifications] flips
    [receiveNotifications] in the member's row and changes nothing else:
    status and ownership stay, and so does every other row. *)
Theorem member_toggles_notifications st c user :
  ChannelPermissions.isMember
    (resolveChannelPermissions st c (User.id user)) = true →
  let u := User.id user in
  let run := Mutation.toggleChannelNotifications c (Some user) st in
  run.1 = Value (channels st !! c) ∧
  ChannelMembership.receiveNotifications (membershipOf run.2 c u) =
    negb (ChannelMembership.receiveNotifications (membershipOf st c u)) ∧
  statusOf run.2 c u = Member ∧
  ChannelMembership.isOwner (membershipOf run.2 c u) =
    ChannelMembership.isOwner (membershipOf st c u) ∧
  onlyRowDiffers c u st run.2.
Proof.
  intros Hm u run. subst run.
  destruct (resolve_isMember_inv _ _ _ Hm) as (ch & Hc & Hd & Hs).
  rewrite (toggleChannelNotifications_member st c user) by done.
  cbn [fst snd]. fold u.
  unfold statusOf, membershipOf; cbn. rewrite lookup_insert_eq; cbn.
  split_and!; try done.
  unfold onlyRowDiffers; cbn. split_and!; try done.
  intros c' u' Hne. by rewrite lookup_insert_ne.
Qed.

Lemma member_toggles_notifications_witness :
  ChannelPermissions.isMember
    (resolveChannelPermissions World.store "lounge" "ursula") = true ∧
  ChannelMembership.receiveNotifications
    (membershipOf World.store "lounge" "ursula") = true ∧
  ChannelMembership.receiveNotifications
    (membershipOf
       (Mutation.toggleChannelNotifications "lounge" (Some World.ursula)
          World.store).2 "lounge" "ursula") = false.
Proof.
  split_and!; [done..|].
  destruct (member_toggles_notifications World.store "lounge" World.ursula)
    as (_ & Hflag & _); [done|].
  exact Hflag.
Defined.

(** X21. Toggling the notifications twice gives back the store one
    started from. *)
Theorem notifications_toggle_twice st c user :
  ChannelPermissions.isMember
    (resolveChannelPermissions st c (User.id user)) = true →
  let once := (Mutation.toggleChannelNotifications c (Some user) st).2 in
  (Mutation.toggleChannelNotifications c (Some user) once).2 = st.
Proof.
  intros Hm once. subst once.
  destruct (resolve_isMember_inv _ _ _ Hm) as (ch & Hc & Hd & Hs).
  rewrite (toggleChannelNotifications_member st c user) by done.
  cbn [snd].
  set (st1 := setUsersChannels _ st).
  assert (ChannelPermissions.isMember
            (resolveChannelPermissions st1 c (User.id user)) = true) as Hm1.
  { rewrite (resolve_live st1 c (User.id user) ch) by done. cbn.
    unfold statusOf, membershipOf, st1; cbn. rewrite lookup_insert_eq; cbn.
    by rewrite bool_decide_eq_true_2. }
  rewrite (toggleChannelNotifications_member st1 c user) by done.
  cbn [snd]. unfold st1, membershipOf, setUsersChannels; cbn.
  rewrite lookup_insert_eq; cbn. rewrite insert_insert_eq, negb_involutive.
  unfold statusOf, membershipOf in Hs.
  destruct (usersChannels st !! (c, User.id user)) as [row|] eqn:Hrow;
    [|done].
  cbn. rewrite insert_id; [by destruct st|]. by destruct row.
Qed.

Lemma notifications_toggle_twice_witness :
  ChannelPermissions.isMember
    (resolveChannelPermissions World.store "lounge" "ursula") = true ∧
  (Mutation.toggleChannelNotifications "lounge" (Some World.ursula)
     (Mutation.toggleChannelNotifications "lounge" (Some World.ursula)
        World.store).2).2 = World.store.
Proof.
  split; [done|].
  by apply (notifications_toggle_twice World.store "lounge" World.ursula).
Defined.

(** ** sendChannelEmailInvites *)

Lemma orNull_not_empty s : orNull s ≠ Some "".
Proof. by destruct s as [[|a s]|]. Qed.

Lemma invite_recipients (own : string) (job : Contact.t → InviteNotification.t)
    (contacts : list Contact.t) :
  (∀ contact, InviteNotification.recipientEmail (job contact)
              = Contact.email contact) →
  InviteNotification.recipientEmail <$>
    (job <$> filter (λ contact, Contact.email contact ≠ own) contacts) =
  filter (λ email, email ≠ own) (Contact.email <$> contacts).
Proof.
  intros Hjob. induction contacts as [|contact contacts IH]; [done|].
  rewrite fmap_cons, !filter_cons.
  destruct (decide (Contact.email contact ≠ own)); [|exact IH].
  by rewrite !fmap_cons, Hjob, IH.
Qed.

(** X22. [sendChannelEmailInvites] enqueues jobs for the owner of the
    channel only, one per contact whose email differs from the sender's
    own, in the order of the contacts; the sender is never invited, and
    every job names the channel and the sender. *)
Theorem invites_skip_the_sender st input user jobs :
  Mutation.sendChannelEmailInvites input (Some user) st = Invites jobs →
  ChannelPermissions.isOwner
    (resolveChannelPermissions st (EmailInvitesInput.id input) (User.id user))
  = true ∧
  InviteNotification.recipientEmail <$> jobs =
    filter (λ email, email ≠ User.email user)
           (Contact.email <$> EmailInvitesInput.contacts input) ∧
  (User.email user ∉ InviteNotification.recipientEmail <$> jobs) ∧
  (length jobs ≤ length (EmailInvitesInput.contacts input))%nat ∧
  Forall (λ job, InviteNotification.channelId job = EmailInvitesInput.id input ∧
                 InviteNotification.senderId job = User.id user) jobs.
Proof.
  unfold Mutation.sendChannelEmailInvites.
  destruct (ChannelPermissions.isOwner _); cbn; [|done].
  intros [= <-].
  assert (InviteNotification.recipientEmail <$>
            ((λ contact,
                InviteNotification.Build
                  (Contact.email contact)
                  (orNull (Contact.firstName contact))
                  (orNull (Contact.lastName contact))
                  (EmailInvitesInput.id input) (User.id user)
                  (orNull (EmailInvitesInput.customMessage input)))
             <$> filter (λ contact, Contact.email contact ≠ User.email user)
                        (EmailInvitesInput.contacts input)) =
          filter (λ email, email ≠ User.email user)
                 (Contact.email <$> EmailInvitesInput.contacts input)) as Hto.
  { by apply invite_recipients. }
  split_and!; [done|exact Hto| | |].
  - rewrite Hto. intros [Hne _]%list_elem_of_filter. done.
  - rewrite length_fmap. apply length_filter.
  - apply Forall_forall. intros job (contact & -> & _)%list_elem_of_fmap.
    done.
Qed.

Lemma invites_skip_the_sender_witness :
  let input :=
    EmailInvitesInput.Build (Some "join us")
      [Contact.Build "zed@example.org" (Some "Zed") None;
       Contact.Build "alice@example.org" (Some "Alice") None;
       Contact.Build "erin@example.org" None None]
      "c2" in
  let jobs :=
    [InviteNotification.Build "zed@example.org" (Some "Zed") None "c2" "alice"
       (Some "join us");
     InviteNotification.Build "erin@example.org" None None "c2" "alice"
       (Some "join us")] in
  Mutation.sendChannelEmailInvites input (Some World.alice) World.store =
    Invites jobs ∧
  InviteNotification.recipientEmail <$> jobs =
    ["zed@example.org"; "erin@example.org"] ∧
  ("alice@example.org" ∉ InviteNotification.recipientEmail <$> jobs).
Proof.
  intros input jobs.
  assert (Mutation.sendChannelEmailInvites input (Some World.alice)
            World.store = Invites jobs) as Hrun by done.
  destruct (invites_skip_the_sender World.store input World.alice jobs Hrun)
    as (_ & Hto & Hself & _).
  split_and!; [exact Hrun|by rewrite Hto|exact Hself].
Defined.

(** X23. No invite job carries an empty string: a first name, a last name
    or a custom message that is empty goes out as [null], like a missing
    one. *)
Theorem invites_carry_no_empty_string st input user jobs :
  Mutation.sendChannelEmailInvites input (Some user) st = Invites jobs →
  Forall (λ job, InviteNotification.recipientFirstName job ≠ Some "" ∧
                 InviteNotification.recipientLastName job ≠ Some "" ∧
                 InviteNotification.customMessage job ≠ Some "") jobs.
Proof.
  unfold Mutation.sendChannelEmailInvites.
  destruct (ChannelPermissions.isOwner _); cbn; [|done].
  intros [= <-]. apply Forall_forall.
  intros job (contact & -> & _)%list_elem_of_fmap. cbn.
  split_and!; apply orNull_not_empty.
Qed.

Lemma invites_carry_no_empty_string_witness :
  let input :=
    EmailInvitesInput.Build (Some "")
      [Contact.Build "zed@example.org" (Some "") (Some "Zed")] "c2" in
  let jobs :=
    [InviteNotification.Build "zed@example.org" None (Some "Zed") "c2" "alice"
       None] in
  Mutation.sendChannelEmailInvites input (Some World.alice) World.store =
    Invites jobs ∧
  Forall (λ job, InviteNotification.recipientFirstName job ≠ Some "" ∧
                 InviteNotification.recipientLastName job ≠ Some "" ∧
                 InviteNotification.customMessage job ≠ Some "") jobs.
Proof.
  intros input jobs.
  assert (Mutation.sendChannelEmailInvites input (Some World.alice)
            World.store = Invites jobs) as Hrun by done.
  split; [exact Hrun|].
  exact (invites_carry_no_empty_string World.store input World.alice jobs Hrun).
Defined.

(** ** createChannel *)

Lemma channelBySlug_is_Some st slug communitySlug c ch :
  channels st !! c = Some ch →
  Channel.slug ch = slug →
  Community.slug <$> communities st !! Channel.communityId ch
    = Some communitySlug →
  is_Some (channelBySlug st slug communitySlug).
Proof.
  intros Hc Hs Hk. unfold channelBySlug. apply head_is_Some. intros Hnil.
  eapply filter_nil_not_elem_of; [exact Hnil| |].
  - split; [exact Hs|exact Hk].
  - apply list_elem_of_fmap. exists (c, ch). split; [done|].
    by apply elem_of_map_to_list.
Qed.

Lemma channelBySlug_None st slug communitySlug :
  (∀ c ch, channels st !! c = Some ch → Channel.slug ch = slug →
           Community.slug <$> communities st !! Channel.communityId ch
           ≠ Some communitySlug) →
  channelBySlug st slug communitySlug = None.
Proof.
  intros Hfree. unfold channelBySlug. apply head_None.
  destruct (filter _ _) as [|ch l] eqn:Hfilter; [done|].
  assert (ch ∈ ch :: l) as Hin by left. rewrite <-Hfilter in Hin.
  apply list_elem_of_filter in Hin as [[Hs Hk] Hin].
  apply list_elem_of_fmap in Hin as ([c ch'] & -> & Hin).
  apply elem_of_map_to_list in Hin. by destruct (Hfree c ch').
Qed.

Section CreateChannel.
Variables (reserved : string → bool) (newId : string)
          (input : CreateChannelInput.t) (user : User.t) (st : Store).

Lemma createChannel_denied :
  CommunityPermissions.isOwner
    (resolveCommunityPermissions st (CreateChannelInput.communityId input)
       (User.id user)) = false →
  Mutation.createChannel reserved newId input (Some user) st =
  (UserError
     (if reserved (CreateChannelInput.slug input)
      then "This channel name is reserved."
      else "You don't have permission to create a channel in this community."),
   st).
Proof.
  intros Ho. unfold Mutation.createChannel.
  destruct (reserved _); [done|]. run. unfold getCommunities, reads; cbn.
  rewrite Ho. by destruct (communities st !! _).
Qed.

Variable com : Community.t.
Hypothesis Hfree : reserved (CreateChannelInput.slug input) = false.
Hypothesis Hcom :
  communities st !! CreateChannelInput.communityId input = Some com.
Hypothesis Hown :
  CommunityPermissions.isOwner
    (resolveCommunityPermissions st (CreateChannelInput.communityId input)
       (User.id user)) = true.

Lemma createChannel_taken :
  is_Some (channelBySlug st (CreateChannelInput.slug input)
             (Community.slug com)) →
  Mutation.createChannel reserved newId input (Some user) st =
  (UserError "A channel with this slug already exists.", st).
Proof using All.
  intros [ch Hch]. unfold Mutation.createChannel. rewrite Hfree. run.
  unfold getCommunities, getChannelBySlug, reads; cbn -[channelBySlug].
  rewrite Hcom; cbn -[channelBySlug]. rewrite Hown; cbn -[channelBySlug].
  by rewrite Hch.
Qed.

Lemma createChannel_created :
  channelBySlug st (CreateChannelInput.slug input) (Community.slug com)
    = None →
  let newChannel :=
    Channel.Build newId (CreateChannelInput.communityId input)
      (CreateChannelInput.slug input) (CreateChannelInput.isPrivate input)
      None in
  Mutation.createChannel reserved newId input (Some user) st =
  (Value (Some newChannel),
   setUsersChannels
     <[(newId, User.id user) :=
         ChannelMembership.Build Member true
           (ChannelMembership.receiveNotifications
              (membershipOf st newId (User.id user)))]>
     (setChannels <[newId := newChannel]> st)).
Proof using All.
  intros Hnone newChannel. unfold Mutation.createChannel. rewrite Hfree. run.
  unfold getCommunities, getChannelBySlug, reads; cbn -[channelBySlug].
  rewrite Hcom; cbn -[channelBySlug]. rewrite Hown; cbn -[channelBySlug].
  by rewrite Hnone.
Qed.
End CreateChannel.

(** X24. Only an owner of the community creates channels.  For a
    signed-in user who does not own the community (or when the community
    does not exist) [createChannel] writes nothing and settles to an
    error: the 'reserved' error when the slug is reserved, as that guard
    comes first, the permission error otherwise. *)
Theorem create_channel_needs_community_owner reserved newId input user st :
  CommunityPermissions.isOwner
    (resolveCommunityPermissions st (CreateChannelInput.communityId input)
       (User.id user)) = false →
  Mutation.createChannel reserved newId input (Some user) st =
  (UserError
     (if reserved (CreateChannelInput.slug input)
      then "This channel name is reserved."
      else "You don't have permission to create a channel in this community."),
   st).
Proof. apply createChannel_denied. Qed.

Lemma create_channel_needs_community_owner_witness :
  CommunityPermissions.isOwner
    (resolveCommunityPermissions World.store "K" "dave") = false ∧
  Mutation.createChannel reservedSlugs "c9"
    (CreateChannelInput.Build "K" "random" false) (Some World.dave)
    World.store =
  (UserError "You don't have permission to create a channel in this community.",
   World.store).
Proof.
  split; [done|].
  by rewrite (create_channel_needs_community_owner reservedSlugs "c9"
                (CreateChannelInput.Build "K" "random" false) World.dave
                World.store).
Defined.

(** X25. A slug is used once per community: when a live channel of the
    community already has the slug, [createChannel] by the owner of the
    community fails with the 'already exists' error and writes nothing. *)
Theorem create_channel_rejects_taken_slug
    reserved newId input user st com c ch :
  reserved (CreateChannelInput.slug input) = false →
  communities st !! CreateChannelInput.communityId input = Some com →
  CommunityPermissions.isOwner
    (resolveCommunityPermissions st (CreateChannelInput.communityId input)
       (User.id user)) = true →
  channels st !! c = Some ch →
  Channel.deletedAt ch = None →
  Channel.communityId ch = CreateChannelInput.communityId input →
  Channel.slug ch = CreateChannelInput.slug input →
  Mutation.createChannel reserved newId input (Some user) st =
  (UserError "A channel with this slug already exists.", st).
Proof.
  intros Hfree Hcom Hown Hc _ Hk Hs.
  apply (createChannel_taken reserved newId input user st com); [done..|].
  apply (channelBySlug_is_Some st _ _ c ch); [done..|].
  by rewrite Hk, Hcom.
Qed.

Lemma create_channel_rejects_taken_slug_witness :
  reservedSlugs "lounge" = false ∧
  CommunityPermissions.isOwner
    (resolveCommunityPermissions World.store "K" "alice") = true ∧
  channels World.store !! "lounge" = Some World.lounge ∧
  Mutation.createChannel reservedSlugs "c9"
    (CreateChannelInput.Build "K" "lounge" true) (Some World.alice)
    World.store =
  (UserError "A channel with this slug already exists.", World.store).
Proof.
  split_and!; [done..|].
  by apply (create_channel_rejects_taken_slug reservedSlugs "c9"
              (CreateChannelInput.Build "K" "lounge" true) World.alice
              World.store (Community.Build "k" None ["general"; "announcements"])
              "lounge" World.lounge).
Defined.

(** X26. The owner of the community creates a channel under a free,
    unreserved slug: the channel is stored under the new id, live, with
    the community, slug and privacy of the input; the creator is its
    owner and a Member of it; and no other channel, no other membership,
    no community membership changes. *)
Theorem create_channel_makes_creator_owner
    reserved newId input user st com :
  reserved (CreateChannelInput.slug input) = false →
  communities st !! CreateChannelInput.communityId input = Some com →
  CommunityPermissions.isOwner
    (resolveCommunityPermissions st (CreateChannelInput.communityId input)
       (User.id user)) = true →
  (∀ c ch, channels st !! c = Some ch →
           Channel.slug ch = CreateChannelInput.slug input →
           Community.slug <$> communities st !! Channel.communityId ch
           ≠ Some (Community.slug com)) →
  let newChannel :=
    Channel.Build newId (CreateChannelInput.communityId input)
      (CreateChannelInput.slug input) (CreateChannelInput.isPrivate input)
      None in
  let run := Mutation.createChannel reserved newId input (Some user) st in
  run.1 = Value (Some newChannel) ∧
  channels run.2 !! newId = Some newChannel ∧
  statusOf run.2 newId (User.id user) = Member ∧
  ChannelMembership.isOwner (membershipOf run.2 newId (User.id user)) = true ∧
  (∀ c, c ≠ newId → channels run.2 !! c = channels st !! c) ∧
  (∀ c u, (c, u) ≠ (newId, User.id user) →
          usersChannels run.2 !! (c, u) = usersChannels st !! (c, u)) ∧
  communities run.2 = communities st ∧
  usersCommunities run.2 = usersCommunities st.
Proof.
  intros Hfree Hcom Hown Hslug newChannel run. subst run.
  rewrite (createChannel_created reserved newId input user st com)
    by (try done; by apply channelBySlug_None).
  cbn [fst snd]. fold newChannel.
  unfold statusOf, membershipOf; cbn. rewrite !lookup_insert_eq; cbn.
  split_and!; try done.
  - intros c Hne. by rewrite lookup_insert_ne.
  - intros c u Hne. by rewrite lookup_insert_ne.
Qed.

Lemma create_channel_makes_creator_owner_witness :
  let input := CreateChannelInput.Build "K" "random" true in
  let run :=
    Mutation.createChannel reservedSlugs "c9" input (Some World.alice)
      World.store in
  reservedSlugs "random" = false ∧
  CommunityPermissions.isOwner
    (resolveCommunityPermissions World.store "K" "alice") = true ∧
  channels run.2 !! "c9" = Some (Channel.Build "c9" "K" "random" true None) ∧
  statusOf run.2 "c9" "alice" = Member ∧
  ChannelMembership.isOwner (membershipOf run.2 "c9" "alice") = true.
Proof.
  intros input run.
  assert (map_Forall
            (λ (_ : string) ch,
               Channel.slug ch = "random" →
               Community.slug <$> communities World.store
                                    !! Channel.communityId ch ≠ Some "k")
            (channels World.store)) as Hslug.
  { apply (bool_decide_unpack _). vm_compute. exact I. }
  destruct (create_channel_makes_creator_owner reservedSlugs "c9" input
              World.alice World.store
              (Community.Build "k" None ["general"; "announcements"]))
    as (_ & Hch & Hs & Ho & _); [done..|exact Hslug|].
  by split_and!.
Defined.

(** X27. What follows a creation.  The creator, now the owner of the new
    channel, cannot leave it through [toggleChannelSubscription]; and a
    second [createChannel] with the same slug in the same community fails
    with the 'already exists' error, whatever id it would get.  Neither
    writes. *)
Theorem created_channel_is_owned_and_unique
    reserved newId input user st com :
  reserved (CreateChannelInput.slug input) = false →
  communities st !! CreateChannelInput.communityId input = Some com →
  CommunityPermissions.isOwner
    (resolveCommunityPermissions st (CreateChannelInput.communityId input)
       (User.id user)) = true →
  (∀ c ch, channels st !! c = Some ch →
           Channel.slug ch = CreateChannelInput.slug input →
           Community.slug <$> communities st !! Channel.communityId ch
           ≠ Some (Community.slug com)) →
  let created :=
    (Mutation.createChannel reserved newId input (Some user) st).2 in
  Mutation.toggleChannelSubscription newId (Some user) created =
    (UserError "Owners of a community can't join or leave their own channel.",
     created) ∧
  (∀ otherId isPrivate,
     Mutation.createChannel reserved otherId
       (CreateChannelInput.Build (CreateChannelInput.communityId input)
          (CreateChannelInput.slug input) isPrivate)
       (Some user) created =
     (UserError "A channel with this slug already exists.", created)).
Proof.
  intros Hfree Hcom Hown Hslug created. subst created.
  rewrite (createChannel_created reserved newId input user st com)
    by (try done; by apply channelBySlug_None).
  cbn [snd].
  set (newChannel := Channel.Build newId _ _ _ None).
  set (created := setUsersChannels _ _).
  assert (channels created !! newId = Some newChannel) as Hnew.
  { unfold created; cbn. apply lookup_insert_eq. }
  split.
  - apply (toggleChannelSubscription_owner created newId user newChannel);
      [done..| |];
      unfold statusOf, membershipOf, created; cbn;
      by rewrite lookup_insert_eq.
  - intros otherId isPrivate.
    apply (createChannel_taken reserved otherId _ user created com);
      [done..|].
    by apply (channelBySlug_is_Some created _ _ newId newChannel);
      [| |cbn; rewrite Hcom].
Qed.

Lemma created_channel_is_owned_and_unique_witness :
  let input := CreateChannelInput.Build "K" "random" true in
  let created :=
    (Mutation.createChannel reservedSlugs "c9" input (Some World.alice)
       World.store).2 in
  reservedSlugs "random" = false ∧
  CommunityPermissions.isOwner
    (resolveCommunityPermissions World.store "K" "alice") = true ∧
  Mutation.toggleChannelSubscription "c9" (Some World.alice) created =
    (UserError "Owners of a community can't join or leave their own channel.",
     created) ∧
  Mutation.createChannel reservedSlugs "c10"
    (CreateChannelInput.Build "K" "random" false) (Some World.alice) created =
    (UserError "A channel with this slug already exists.", created).
Proof.
  intros input created.
  assert (map_Forall
            (λ (_ : string) ch,
               Channel.slug ch = "random" →
               Community.slug <$> communities World.store
                                    !! Channel.communityId ch ≠ Some "k")
            (channels World.store)) as Hslug.
  { apply (bool_decide_unpack _). vm_compute. exact I. }
  destruct (created_channel_is_owned_and_unique reservedSlugs "c9" input
              World.alice World.store
              (Community.Build "k" None ["general"; "announcements"]))
    as (Htoggle & Hagain); [done..|exact Hslug|].
  split_and!; [done..|exact Htoggle|apply Hagain].
Defined.

(** ** What the membership commands never touch *)

(** Case analysis over every branch of a resolver, on the goal. *)
Ltac branches :=
  repeat (cbn;
          match goal with
          | |- context [match ?x with _ => _ end] => destruct x eqn:?
          | |- context [if ?b then _ else _] => destruct b eqn:?
          end);
  cbn.

(** Unfolds the gateway calls down to the store they return. *)
Ltac gateway :=
  unfold createMemberInChannel, removeMemberInChannel, unblockMemberInChannel,
    createOrUpdatePendingUserInChannel, blockUserInChannel,
    approvePendingUserInChannel, transition, createMemberInCommunity,
    removeMemberInCommunity, createMemberInDefaultChannels,
    toggleUserChannelNotifications, addQueue, writes, reads in *.

Ltac joins :=
  match goal with
  | |- context [joinChannels ?u ?l ?s] =>
      destruct (joinChannels_frame u l s) as (-> & -> & _ & -> & _)
  end.

(** X28. The membership commands write membership rows and jobs only:
    whatever the input, the caller and the store, [toggleChannelSubscription],
    [toggleChannelNotifications], [togglePendingUser] and [unblockUser]
    leave every channel record, every community record and every thread
    as they were. *)
Theorem membership_commands_keep_records st :
  let keeps (st' : Store) :=
    channels st' = channels st ∧ communities st' = communities st ∧
    threads st' = threads st in
  (∀ c user, keeps (Mutation.toggleChannelSubscription c user st).2) ∧
  (∀ c user, keeps (Mutation.toggleChannelNotifications c user st).2) ∧
  (∀ input user, keeps (Mutation.togglePendingUser input user st).2) ∧
  (∀ input user, keeps (Mutation.unblockUser input user st).2).
Proof.
  intros keeps. subst keeps. cbn beta. split_and!; intros.
  - unfold Mutation.toggleChannelSubscription. run. gateway.
    branches; guards. all: by joins.
  - unfold Mutation.toggleChannelNotifications. run. gateway.
    branches; guards.
  - unfold Mutation.togglePendingUser. run. gateway.
    branches; guards. all: by joins.
  - unfold Mutation.unblockUser. run. gateway. branches; guards.
Qed.

Lemma joinChannels_other_user u l st c u' :
  u' ≠ u →
  usersChannels (joinChannels u l st) !! (c, u') = usersChannels st !! (c, u').
Proof.
  intros Hne. induction l as [|d l IH]; [done|].
  change (joinChannels u (d :: l) st)
    with (putStatus Member d u (joinChannels u l st)).
  unfold putStatus at 1; cbn. rewrite lookup_insert_ne by congruence. done.
Qed.

(** Closes a goal on the rows of a user whom the command does not name. *)
Ltac other_user :=
  repeat match goal with
         | |- _ ∧ _ => split
         | |- context [usersChannels (joinChannels ?u ?l ?s)] =>
             rewrite (joinChannels_other_user u l s) by congruence
         | |- context [usersCommunities (joinChannels ?u ?l ?s)] =>
             destruct (joinChannels_frame u l s) as (_ & _ & -> & _)
         | |- _ => progress cbn
         | |- _ => rewrite lookup_insert_ne by congruence
         | |- _ => rewrite lookup_delete_ne by congruence
         end;
  try done.

(** X29. A command changes the memberships of one user only.
    [toggleChannelSubscription] and [toggleChannelNotifications] leave the
    channel and community memberships of everyone but the caller as they
    were; [togglePendingUser] and [unblockUser] those of everyone but the
    user named in the input. *)
Theorem commands_change_one_user st u c k :
  let keeps (st' : Store) :=
    usersChannels st' !! (c, u) = usersChannels st !! (c, u) ∧
    usersCommunities st' !! (k, u) = usersCommunities st !! (k, u) in
  (∀ c0 user, User.id user ≠ u →
     keeps (Mutation.toggleChannelSubscription c0 (Some user) st).2) ∧
  (∀ c0 user, User.id user ≠ u →
     keeps (Mutation.toggleChannelNotifications c0 (Some user) st).2) ∧
  (∀ input actor, TogglePendingInput.userId input ≠ u →
     keeps (Mutation.togglePendingUser input actor st).2) ∧
  (∀ input actor, UnblockInput.userId input ≠ u →
     keeps (Mutation.unblockUser input actor st).2).
Proof.
  intros keeps. subst keeps. cbn beta. split_and!; intros.
  - unfold Mutation.toggleChannelSubscription. run. gateway.
    branches; guards; other_user.
  - unfold Mutation.toggleChannelNotifications. run. gateway.
    branches; guards; other_user.
  - unfold Mutation.togglePendingUser. run. gateway.
    branches; guards; other_user.
  - unfold Mutation.unblockUser. run. gateway.
    branches; guards; other_user.
Qed.

Lemma commands_change_one_user_witness :
  let run :=
    Mutation.togglePendingUser
      (TogglePendingInput.Build "c2" "victor" "approve") (Some World.alice)
      World.store in
  usersChannels run.2 !! ("c2", "bob") =
    Some (ChannelMembership.Build Blocked false false) ∧
  usersCommunities run.2 !! ("K", "dave") = Some CommunityPermissions.member.
Proof.
  destruct (commands_change_one_user World.store "bob" "c2" "K")
    as (_ & _ & Hbob & _).
  destruct (commands_change_one_user World.store "dave" "c2" "K")
    as (_ & _ & Hdave & _).
  split.
  - by destruct (Hbob (TogglePendingInput.Build "c2" "victor" "approve")
                   (Some World.alice)) as [-> _].
  - by destruct (Hdave (TogglePendingInput.Build "c2" "victor" "approve")
                   (Some World.alice)) as [_ ->].
Defined.
